(** * Head-tracked off-axis projection: the projection solver, the One-Euro
    smoothing filters and the head pose estimator.

    The JavaScript sources are embedded function by function.  A JavaScript
    [number] is read as a real number ([R]): rounding, infinities and NaN are
    outside this model, and so is the value of a division by zero (no
    statement below depends on one).  Every other feature of the code
    (nullable fields, coercion of [null] in arithmetic, thrown exceptions,
    mutation of [this], recursion) is written out.

    - mutable objects are records, a method takes the object and returns the
      new object next to its result;
    - a nullable number ([null] or a number) is [option R];
    - a recursive function takes the number of nested activations it may use
      ([fuel]); [None] means that the activations were used up.

    [Binary64.calculateOffAxisFrustum] is the axis-aligned solver once more,
    on IEEE 754 binary64 numbers, to run the examples of the specification
    with the arithmetic of the JavaScript engine. *)

From Stdlib Require Import Reals Lra Lia List Bool String.
From Stdlib Require PrimFloat.
Import ListNotations.

Local Open Scope R_scope.

(** ** Plain data *)

Module Vec3.
Record t : Type := mk { x : R; y : R; z : R }.
End Vec3.

Module ScreenGeometry.
Record t : Type := mk { width : R; height : R }.
End ScreenGeometry.

Module FrustumParams.
Record t : Type := mk
  { left : R; right : R; top : R; bottom : R; near : R; far : R }.
End FrustumParams.

(** ** KooimaProjection.js *)

Module KooimaProjection.

(** [calculateOffAxisFrustum(eyePos, screen, near, far)]. *)
Fixpoint calculateOffAxisFrustum (fuel : nat) (eyePos : Vec3.t)
    (screen : ScreenGeometry.t) (near far : R) : option FrustumParams.t :=
  match fuel with
  | O => None
  | S fuel' =>
      let halfW := ScreenGeometry.width screen / 2 in
      let halfH := ScreenGeometry.height screen / 2 in
      let pa_x := - halfW in
      let pa_y := - halfH in
      let pa_z := 0 in
      let pb_x := halfW in
      let pb_y := - halfH in
      let pb_z := 0 in
      let pc_x := - halfW in
      let pc_y := halfH in
      let pc_z := 0 in
      let va_x := pa_x - Vec3.x eyePos in
      let va_y := pa_y - Vec3.y eyePos in
      let va_z := pa_z - Vec3.z eyePos in
      let vb_x := pb_x - Vec3.x eyePos in
      let vc_y := pc_y - Vec3.y eyePos in
      let d := - va_z in
      if Rle_dec d 0 then
        calculateOffAxisFrustum fuel'
          (Vec3.mk (Vec3.x eyePos) (Vec3.y eyePos) 1) screen near far
      else
        let k := near / d in
        let left := va_x * k in
        let right := vb_x * k in
        let bottom := va_y * k in
        let top := vc_y * k in
        Some (FrustumParams.mk left right top bottom near far)
  end.

(** The vector helpers at the end of the file. *)
Definition sub (a b : Vec3.t) : Vec3.t :=
  Vec3.mk (Vec3.x a - Vec3.x b) (Vec3.y a - Vec3.y b) (Vec3.z a - Vec3.z b).

Definition add (a b : Vec3.t) : Vec3.t :=
  Vec3.mk (Vec3.x a + Vec3.x b) (Vec3.y a + Vec3.y b) (Vec3.z a + Vec3.z b).

Definition scale (v : Vec3.t) (s : R) : Vec3.t :=
  Vec3.mk (Vec3.x v * s) (Vec3.y v * s) (Vec3.z v * s).

Definition dot (a b : Vec3.t) : R :=
  Vec3.x a * Vec3.x b + Vec3.y a * Vec3.y b + Vec3.z a * Vec3.z b.

Definition cross (a b : Vec3.t) : Vec3.t :=
  Vec3.mk (Vec3.y a * Vec3.z b - Vec3.z a * Vec3.y b)
          (Vec3.z a * Vec3.x b - Vec3.x a * Vec3.z b)
          (Vec3.x a * Vec3.y b - Vec3.y a * Vec3.x b).

(** [normalize(v)].  The test [len === 0] is read on real numbers, where it
    holds for the zero vector only; on binary64 numbers a vector that is
    zero in exact arithmetic can come with a rounding residue, and then
    takes the other branch. *)
Definition normalize (v : Vec3.t) : Vec3.t :=
  let len :=
    sqrt (Vec3.x v * Vec3.x v + Vec3.y v * Vec3.y v + Vec3.z v * Vec3.z v) in
  if Req_dec_T len 0 then Vec3.mk 0 0 0
  else Vec3.mk (Vec3.x v / len) (Vec3.y v / len) (Vec3.z v / len).

(** The object [{ frustum, viewMatrix }]; the matrix is the flat array of
    sixteen numbers. *)
Record Projection : Type := mkProjection
  { frustum : FrustumParams.t; viewMatrix : list R }.

(** [calculateGeneralizedProjection(eyePos, screenLL, screenLR, screenUL,
    near, far)].  On real numbers the nudged eye [eyePos + vn * (1 - d)] is
    at distance 1 from the plane of a screen with a unit normal; on binary64
    numbers the sum is rounded, and for an eye very far behind the plane
    the nudged eye can still be on or behind it. *)
Fixpoint calculateGeneralizedProjection (fuel : nat)
    (eyePos screenLL screenLR screenUL : Vec3.t) (near far : R)
    : option Projection :=
  match fuel with
  | O => None
  | S fuel' =>
      let vr := normalize (sub screenLR screenLL) in
      let vu := normalize (sub screenUL screenLL) in
      let vn := normalize (cross vr vu) in
      let va := sub screenLL eyePos in
      let vb := sub screenLR eyePos in
      let vc := sub screenUL eyePos in
      let d := - dot va vn in
      if Rle_dec d 0 then
        let nudged := add eyePos (scale vn (1 - d)) in
        calculateGeneralizedProjection fuel'
          nudged screenLL screenLR screenUL near far
      else
        let k := near / d in
        let left := dot vr va * k in
        let right := dot vr vb * k in
        let bottom := dot vu va * k in
        let top := dot vu vc * k in
        let tx := - dot vr eyePos in
        let ty := - dot vu eyePos in
        let tz := - dot vn eyePos in
        let viewMatrix :=
          [ Vec3.x vr; Vec3.x vu; Vec3.x vn; 0;
            Vec3.y vr; Vec3.y vu; Vec3.y vn; 0;
            Vec3.z vr; Vec3.z vu; Vec3.z vn; 0;
            tx; ty; tz; 1 ] in
        Some (mkProjection
                (FrustumParams.mk left right top bottom near far)
                viewMatrix)
  end.

(** The normal of the screen plane as the function computes it. *)
Definition screenNormal (screenLL screenLR screenUL : Vec3.t) : Vec3.t :=
  normalize (cross (normalize (sub screenLR screenLL))
                   (normalize (sub screenUL screenLL))).

End KooimaProjection.

(** ** JavaScript values used by the stateful classes *)

(** Value of a nullable number in an arithmetic expression: [null] counts
    as zero. *)
Definition toNumber (v : option R) : R :=
  match v with
  | Some r => r
  | None => 0
  end.

(** The object literal [{ x: fx, y: fy, z: fz }] built by
    [Vector3OneEuroFilter.filter]: each field holds what
    [OneEuroFilter.filter] returned, a number or [null]. *)
Module Position.
Record t : Type := mk { x : option R; y : option R; z : option R }.
End Position.

(** The options object of the filter constructors; an absent field is
    [None]. *)
Module SmoothingOptions.
Record t : Type := mk
  { minCutoff : option R;
    beta : option R;
    dCutoff : option R;
    deadZone : option R }.

(** The empty object [{}]. *)
Definition empty : t := mk None None None None.
End SmoothingOptions.

(** How a call ends: with a value, or with a thrown exception. *)
Inductive exn : Type :=
| TypeError
| Error (message : string).

Inductive completion (A : Type) : Type :=
| Return (v : A)
| Throw (e : exn).

Arguments Return {A} v.
Arguments Throw {A} e.

(** ** Smoothing.js *)

Module LowPassFilter.

Record t : Type := mk { _prev : option R }.

Definition new : t := mk None.

Definition filter (f : t) (x alpha : R) : R * t :=
  match _prev f with
  | None => (x, mk (Some x))
  | Some p =>
      let filtered := alpha * x + (1 - alpha) * p in
      (filtered, mk (Some filtered))
  end.

Definition prev (f : t) : option R := _prev f.

Definition reset (f : t) : t := mk None.

End LowPassFilter.

Module OneEuroFilter.

Record t : Type := mk
  { minCutoff : R;
    beta : R;
    dCutoff : R;
    _xFilter : LowPassFilter.t;
    _dxFilter : LowPassFilter.t;
    _tPrev : option R }.

(** [constructor({ minCutoff = 1.0, beta = 0.5, dCutoff = 1.0 } = {})]. *)
Definition new (options : SmoothingOptions.t) : t :=
  mk match SmoothingOptions.minCutoff options with
     | Some v => v
     | None => 1.0
     end
     match SmoothingOptions.beta options with Some v => v | None => 0.5 end
     match SmoothingOptions.dCutoff options with
     | Some v => v
     | None => 1.0
     end
     LowPassFilter.new LowPassFilter.new None.

Definition _alpha (cutoff dt : R) : R :=
  let tau := 1.0 / (2 * PI * cutoff) in
  1.0 / (1.0 + tau / dt).

(** [filter(x, timestamp)]; the result is a number, or what
    [this._xFilter.prev] holds when the time step is not positive. *)
Definition filter (f : t) (x timestamp : R) : option R * t :=
  match _tPrev f with
  | None =>
      let xf := snd (LowPassFilter.filter (_xFilter f) x 1.0) in
      let dxf := snd (LowPassFilter.filter (_dxFilter f) 0 1.0) in
      (Some x,
       mk (minCutoff f) (beta f) (dCutoff f) xf dxf (Some timestamp))
  | Some tPrev =>
      let dt := timestamp - tPrev in
      if Rle_dec dt 0 then (LowPassFilter.prev (_xFilter f), f)
      else
        let dx := (x - toNumber (LowPassFilter.prev (_xFilter f))) / dt in
        let alphaDx := _alpha (dCutoff f) dt in
        let '(dxSmoothed, dxf) :=
          LowPassFilter.filter (_dxFilter f) dx alphaDx in
        let cutoff := minCutoff f + beta f * Rabs dxSmoothed in
        let alpha := _alpha cutoff dt in
        let '(filtered, xf) := LowPassFilter.filter (_xFilter f) x alpha in
        (Some filtered,
         mk (minCutoff f) (beta f) (dCutoff f) xf dxf (Some timestamp))
  end.

Definition reset (f : t) : t :=
  mk (minCutoff f) (beta f) (dCutoff f)
     (LowPassFilter.reset (_xFilter f)) (LowPassFilter.reset (_dxFilter f))
     None.

(** The filter that the first branch of [filter] leaves on a filter without
    history: it holds the sample [v], the derivative 0 and [timestamp]. *)
Definition started (f : t) (v timestamp : R) : t :=
  mk (minCutoff f) (beta f) (dCutoff f) (LowPassFilter.mk (Some v))
     (LowPassFilter.mk (Some 0)) (Some timestamp).

(** A caller that passes the samples [(x, timestamp)] to [filter] in turn:
    the values returned, and the filter left by the last call. *)
Fixpoint feed (f : t) (samples : list (R * R)) : list (option R) * t :=
  match samples with
  | [] => ([], f)
  | (x, timestamp) :: rest =>
      let '(y, f1) := filter f x timestamp in
      let '(ys, f2) := feed f1 rest in
      (y :: ys, f2)
  end.


End OneEuroFilter.

Definition DEFAULT_DEAD_ZONE : R := 2.0.

Module Vector3OneEuroFilter.

Record t : Type := mk
  { _filterX : OneEuroFilter.t;
    _filterY : OneEuroFilter.t;
    _filterZ : OneEuroFilter.t;
    _deadZone : R;
    _lastOutput : option Position.t }.

(** [constructor({ minCutoff = 1.0, beta = 0.5, dCutoff = 1.0,
    deadZone = DEFAULT_DEAD_ZONE } = {})]. *)
Definition new (options : SmoothingOptions.t) : t :=
  let minCutoff :=
    match SmoothingOptions.minCutoff options with
    | Some v => v
    | None => 1.0
    end in
  let beta :=
    match SmoothingOptions.beta options with Some v => v | None => 0.5 end in
  let dCutoff :=
    match SmoothingOptions.dCutoff options with
    | Some v => v
    | None => 1.0
    end in
  let deadZone :=
    match SmoothingOptions.deadZone options with
    | Some v => v
    | None => DEFAULT_DEAD_ZONE
    end in
  let opts :=
    SmoothingOptions.mk (Some minCutoff) (Some beta) (Some dCutoff) None in
  mk (OneEuroFilter.new opts) (OneEuroFilter.new opts)
     (OneEuroFilter.new opts) deadZone None.

(** The Euclidean distance computed inside the dead-zone test. *)
Definition distance (filtered lastOutput : Position.t) : R :=
  let dx :=
    toNumber (Position.x filtered) - toNumber (Position.x lastOutput) in
  let dy :=
    toNumber (Position.y filtered) - toNumber (Position.y lastOutput) in
  let dz :=
    toNumber (Position.z filtered) - toNumber (Position.z lastOutput) in
  sqrt (dx * dx + dy * dy + dz * dz).

(** The point [{ x: fx, y: fy, z: fz }] of the three per-axis calls. *)
Definition filtered (f : t) (pos : Vec3.t) (timestamp : R) : Position.t :=
  Position.mk
    (fst (OneEuroFilter.filter (_filterX f) (Vec3.x pos) timestamp))
    (fst (OneEuroFilter.filter (_filterY f) (Vec3.y pos) timestamp))
    (fst (OneEuroFilter.filter (_filterZ f) (Vec3.z pos) timestamp)).

(** [filter(pos, timestamp)]; [suppressed] is the point of the early
    [return this._lastOutput] of the dead zone, when it is taken. *)
Definition filter (f : t) (pos : Vec3.t) (timestamp : R) : Position.t * t :=
  let '(fx, filterX) :=
    OneEuroFilter.filter (_filterX f) (Vec3.x pos) timestamp in
  let '(fy, filterY) :=
    OneEuroFilter.filter (_filterY f) (Vec3.y pos) timestamp in
  let '(fz, filterZ) :=
    OneEuroFilter.filter (_filterZ f) (Vec3.z pos) timestamp in
  let filtered := Position.mk fx fy fz in
  let suppressed :=
    if Rgt_dec (_deadZone f) 0 then
      match _lastOutput f with
      | Some lastOutput =>
          let dist := distance filtered lastOutput in
          if Rlt_dec dist (_deadZone f) then Some lastOutput else None
      | None => None
      end
    else None in
  match suppressed with
  | Some lastOutput =>
      (lastOutput, mk filterX filterY filterZ (_deadZone f) (_lastOutput f))
  | None =>
      (filtered, mk filterX filterY filterZ (_deadZone f) (Some filtered))
  end.

Definition reset (f : t) : t :=
  mk (OneEuroFilter.reset (_filterX f)) (OneEuroFilter.reset (_filterY f))
     (OneEuroFilter.reset (_filterZ f)) (_deadZone f) None.

(** A caller that passes the samples [(pos, timestamp)] to [filter] in turn:
    the points returned, and the filter left by the last call. *)
Fixpoint feed (f : t) (samples : list (Vec3.t * R)) : list Position.t * t :=
  match samples with
  | [] => ([], f)
  | (pos, timestamp) :: rest =>
      let '(p, f1) := filter f pos timestamp in
      let '(ps, f2) := feed f1 rest in
      (p :: ps, f2)
  end.

End Vector3OneEuroFilter.

(** ** HeadPoseEstimator.js *)

Definition IRIS_DIAMETER_MM : R := 11.7.

Definition MIN_IRIS_PX : R := 5.

Module HeadPoseEstimator.

(** The [config] object of the constructor; an absent optional field is
    [None]. *)
Record Config : Type := mkConfig
  { screenWidthMm : R;
    screenHeightMm : R;
    defaultViewingDistance : R;
    videoWidth : option R;
    videoHeight : option R;
    sensitivityX : option R;
    sensitivityY : option R;
    sensitivityZ : option R;
    useIrisDepth : option bool;
    focalLengthPx : option R;
    smoothing : option SmoothingOptions.t }.

Record t : Type := mk
  { _screenW : R;
    _screenH : R;
    _defaultZ : R;
    _videoW : R;
    _videoH : R;
    _sensX : R;
    _sensY : R;
    _sensZ : R;
    _useIrisDepth : bool;
    _focalLengthPx : option R;
    _filter : Vector3OneEuroFilter.t;
    _wasTracking : bool }.

(** The [??] operator. *)
Definition orElse {A : Type} (v : option A) (d : A) : A :=
  match v with
  | Some a => a
  | None => d
  end.

Definition new (config : Config) : t :=
  mk (screenWidthMm config)
     (screenHeightMm config)
     (defaultViewingDistance config)
     (orElse (videoWidth config) 640)
     (orElse (videoHeight config) 480)
     (orElse (sensitivityX config) 1.0)
     (orElse (sensitivityY config) 1.0)
     (orElse (sensitivityZ config) 1.0)
     (orElse (useIrisDepth config) false)
     (focalLengthPx config)
     (Vector3OneEuroFilter.new
        (orElse (smoothing config) SmoothingOptions.empty))
     false.

(** Field updates of [this]. *)
Definition set_wasTracking (e : t) (b : bool) : t :=
  mk (_screenW e) (_screenH e) (_defaultZ e) (_videoW e) (_videoH e)
     (_sensX e) (_sensY e) (_sensZ e) (_useIrisDepth e) (_focalLengthPx e)
     (_filter e) b.

Definition set_filter (e : t) (f : Vector3OneEuroFilter.t) : t :=
  mk (_screenW e) (_screenH e) (_defaultZ e) (_videoW e) (_videoH e)
     (_sensX e) (_sensY e) (_sensZ e) (_useIrisDepth e) (_focalLengthPx e)
     f (_wasTracking e).

Definition set_calibration (e : t) (focal : R) : t :=
  mk (_screenW e) (_screenH e) (_defaultZ e) (_videoW e) (_videoH e)
     (_sensX e) (_sensY e) (_sensZ e) true (Some focal)
     (_filter e) (_wasTracking e).

(** [_irisWidthPx(landmarks)]; reading a field of an index that the array
    does not have throws a [TypeError]. *)
Definition _irisWidthPx (e : t) (landmarks : list Vec3.t) : completion R :=
  match nth_error landmarks 469, nth_error landmarks 471 with
  | Some l469, Some l471 =>
      let leftW := Rabs (Vec3.x l469 - Vec3.x l471) * _videoW e in
      match nth_error landmarks 474, nth_error landmarks 476 with
      | Some l474, Some l476 =>
          let rightW := Rabs (Vec3.x l474 - Vec3.x l476) * _videoW e in
          Return ((leftW + rightW) / 2)
      | _, _ => Throw TypeError
      end
  | _, _ => Throw TypeError
  end.

(** [_estimateDepthFromIris(landmarks)]. *)
Definition _estimateDepthFromIris (e : t) (landmarks : list Vec3.t)
    : completion R :=
  match _irisWidthPx e landmarks with
  | Throw err => Throw err
  | Return irisPx =>
      if Rlt_dec irisPx MIN_IRIS_PX then Return (_defaultZ e)
      else Return ((toNumber (_focalLengthPx e) * IRIS_DIAMETER_MM) / irisPx)
  end.

(** The test [!landmarks || landmarks.length === 0]. *)
Definition absent (landmarks : option (list Vec3.t)) : bool :=
  match landmarks with
  | None | Some [] => true
  | Some (_ :: _) => false
  end.

(** [estimate(landmarks)]; [now] is the reading of [performance.now()], in
    milliseconds.  [landmarks] is [None] for [null]. *)
Definition estimate (e : t) (landmarks : option (list Vec3.t)) (now : R)
    : completion (option Position.t) * t :=
  match landmarks with
  | None | Some [] =>
      if _wasTracking e then
        (Return None,
         set_wasTracking
           (set_filter e (Vector3OneEuroFilter.reset (_filter e))) false)
      else (Return None, e)
  | Some landmarks =>
      let e := set_wasTracking e true in
      match nth_error landmarks 1 with
      | None => (Throw TypeError, e)
      | Some nose =>
          let x := (Vec3.x nose - 0.5) * _screenW e in
          let y := (0.5 - Vec3.y nose) * _screenH e in
          let depth :=
            if _useIrisDepth e then
              match _focalLengthPx e with
              | Some _ => _estimateDepthFromIris e landmarks
              | None => Return (_defaultZ e)
              end
            else Return (_defaultZ e) in
          match depth with
          | Throw err => (Throw err, e)
          | Return z =>
              let x := x * _sensX e in
              let y := y * _sensY e in
              let z := _defaultZ e + (z - _defaultZ e) * _sensZ e in
              let t := now / 1000 in
              let '(out, f) :=
                Vector3OneEuroFilter.filter (_filter e) (Vec3.mk x y z) t in
              (Return (Some out), set_filter e f)
          end
      end
  end.

(** Two sub-expressions of [estimate], named for the statements below: the
    depth before the sensitivity step, and the point handed to the vector
    filter ([estimate_tracked] ties them to [estimate]). *)
Definition depthOf (e : t) (landmarks : list Vec3.t) : completion R :=
  if _useIrisDepth e then
    match _focalLengthPx e with
    | Some _ => _estimateDepthFromIris e landmarks
    | None => Return (_defaultZ e)
    end
  else Return (_defaultZ e).

Definition rawPosition (e : t) (nose : Vec3.t) (depth : R) : Vec3.t :=
  Vec3.mk ((Vec3.x nose - 0.5) * _screenW e * _sensX e)
          ((0.5 - Vec3.y nose) * _screenH e * _sensY e)
          (_defaultZ e + (depth - _defaultZ e) * _sensZ e).

(** [calibrate(landmarks, distanceMm)]. *)
Definition calibrate (e : t) (landmarks : list Vec3.t) (distanceMm : R)
    : completion R * t :=
  match _irisWidthPx e landmarks with
  | Throw err => (Throw err, e)
  | Return irisPx =>
      if Rlt_dec irisPx MIN_IRIS_PX then
        (Throw (Error "Cannot calibrate: iris not detected clearly enough."), e)
      else
        let focal := (irisPx * distanceMm) / IRIS_DIAMETER_MM in
        (Return focal, set_calibration e focal)
  end.

Definition reset (e : t) : t :=
  set_wasTracking
    (set_filter e (Vector3OneEuroFilter.reset (_filter e))) false.

(** The guard [this._useIrisDepth && this._focalLengthPx !== null] of
    [estimate]. *)
Definition irisDepthActive (e : t) : bool :=
  _useIrisDepth e &&
  match _focalLengthPx e with
  | Some _ => true
  | None => false
  end.

(** The number of landmarks that [estimate] reads: index 1 for the nose, and
    up to index 476 when the iris is measured. *)
Definition landmarksRead (e : t) : nat :=
  if irisDepthActive e then 477%nat else 2%nat.

End HeadPoseEstimator.

(** ** config.js and main.js *)

Module Main.

(** The configuration that [init] builds from [CONFIG] for the head pose
    estimator; [focalLengthPx] is [null] there because
    [CONFIG.headPose.useIrisDepth] is [false]. *)
Definition headPoseEstimatorConfig : HeadPoseEstimator.Config :=
  HeadPoseEstimator.mkConfig 344 215 600 (Some 640) (Some 480)
    (Some 1.0) (Some 1.0) (Some 1.0) (Some false) None
    (Some (SmoothingOptions.mk (Some 1.0) (Some 0.5) (Some 1.0) (Some 2.0))).

End Main.

(** A frame of 478 landmarks for the examples: every point at the image
    centre, except the horizontal iris boundaries 469/471 and 474/476, which
    are 0.1 apart (64 px at a video width of 640 px). *)
Definition sampleFrame : list Vec3.t :=
  repeat (Vec3.mk 0.5 0.5 0) 469 ++
  [ Vec3.mk 0.45 0.5 0; Vec3.mk 0.5 0.5 0; Vec3.mk 0.55 0.5 0;
    Vec3.mk 0.5 0.5 0; Vec3.mk 0.5 0.5 0;
    Vec3.mk 0.45 0.5 0; Vec3.mk 0.5 0.5 0; Vec3.mk 0.55 0.5 0;
    Vec3.mk 0.5 0.5 0 ].

(** The same face further away: the iris boundaries are 0.05 apart
    (32 px). *)
Definition distantFrame : list Vec3.t :=
  repeat (Vec3.mk 0.5 0.5 0) 469 ++
  [ Vec3.mk 0.475 0.5 0; Vec3.mk 0.5 0.5 0; Vec3.mk 0.525 0.5 0;
    Vec3.mk 0.5 0.5 0; Vec3.mk 0.5 0.5 0;
    Vec3.mk 0.475 0.5 0; Vec3.mk 0.5 0.5 0; Vec3.mk 0.525 0.5 0;
    Vec3.mk 0.5 0.5 0 ].

(** The estimator of [main.js] after one frame: [sampleFrame] at the clock
    reading 0. *)
Definition trackingEstimator : HeadPoseEstimator.t :=
  snd (HeadPoseEstimator.estimate
         (HeadPoseEstimator.new Main.headPoseEstimatorConfig)
         (Some sampleFrame) 0).

(** The vector filter of default options after one sample, the origin at
    time 0. *)
Definition startedAtOrigin : Vector3OneEuroFilter.t :=
  snd (Vector3OneEuroFilter.filter
         (Vector3OneEuroFilter.new SmoothingOptions.empty)
         (Vec3.mk 0 0 0) 0).

(** ** KooimaProjection.js on binary64 numbers *)

Module Binary64.

Import PrimFloat.

Local Open Scope float_scope.

Record Vec3 : Type := mkVec3 { x : float; y : float; z : float }.

Record ScreenGeometry : Type := mkScreen { width : float; height : float }.

Record FrustumParams : Type := mkFrustum
  { left : float; right : float; top : float; bottom : float;
    near : float; far : float }.

(** [calculateOffAxisFrustum(eyePos, screen, near, far)], every operation
    rounded as the engine rounds it. *)
Fixpoint calculateOffAxisFrustum (fuel : nat) (eyePos : Vec3)
    (screen : ScreenGeometry) (near far : float) : option FrustumParams :=
  match fuel with
  | O => None
  | S fuel' =>
      let halfW := width screen / 2 in
      let halfH := height screen / 2 in
      let pa_x := - halfW in
      let pa_y := - halfH in
      let pa_z := 0 in
      let pb_x := halfW in
      let pb_y := - halfH in
      let pb_z := 0 in
      let pc_x := - halfW in
      let pc_y := halfH in
      let pc_z := 0 in
      let va_x := pa_x - x eyePos in
      let va_y := pa_y - y eyePos in
      let va_z := pa_z - z eyePos in
      let vb_x := pb_x - x eyePos in
      let vc_y := pc_y - y eyePos in
      let d := - va_z in
      if d <=? 0 then
        calculateOffAxisFrustum fuel'
          (mkVec3 (x eyePos) (y eyePos) 1) screen near far
      else
        let k := near / d in
        let left := va_x * k in
        let right := vb_x * k in
        let bottom := va_y * k in
        let top := vc_y * k in
        Some (mkFrustum left right top bottom near far)
  end.

(** No field of the frustum is NaN or infinite. *)
Definition finite (fr : FrustumParams) : bool :=
  (is_finite (left fr) && is_finite (right fr) && is_finite (top fr)
   && is_finite (bottom fr) && is_finite (near fr) && is_finite (far fr))%bool.

End Binary64.

(** * Properties *)

(** ** The off-axis projection solver *)

Section OffAxisFrustum.

Import KooimaProjection.

Variables (screen : ScreenGeometry.t) (near far : R).

(** One activation is enough for an eye in front of the screen plane, and
    the divisor it uses is the eye's z. *)
Lemma offaxis_in_front (fuel : nat) (eyePos : Vec3.t) :
  0 < Vec3.z eyePos ->
  calculateOffAxisFrustum (S fuel) eyePos screen near far =
  Some (FrustumParams.mk
          ((- (ScreenGeometry.width screen / 2) - Vec3.x eyePos)
           * (near / Vec3.z eyePos))
          ((ScreenGeometry.width screen / 2 - Vec3.x eyePos)
           * (near / Vec3.z eyePos))
          ((ScreenGeometry.height screen / 2 - Vec3.y eyePos)
           * (near / Vec3.z eyePos))
          ((- (ScreenGeometry.height screen / 2) - Vec3.y eyePos)
           * (near / Vec3.z eyePos))
          near far).
Proof.
  intros Hz. simpl.
  destruct (Rle_dec (- (0 - Vec3.z eyePos)) 0) as [Hle | Hgt]; [lra|].
  replace (- (0 - Vec3.z eyePos)) with (Vec3.z eyePos) by ring.
  reflexivity.
Qed.

(** An eye on or behind the screen plane costs one more activation, on the
    eye moved to z = 1. *)
Lemma offaxis_behind (fuel : nat) (eyePos : Vec3.t) :
  Vec3.z eyePos <= 0 ->
  calculateOffAxisFrustum (S fuel) eyePos screen near far =
  calculateOffAxisFrustum fuel
    (Vec3.mk (Vec3.x eyePos) (Vec3.y eyePos) 1) screen near far.
Proof.
  intros Hz. simpl.
  destruct (Rle_dec (- (0 - Vec3.z eyePos)) 0) as [Hle | Hgt];
    [reflexivity|lra].
Qed.

(** Two activations, that is one retry, are enough for every input. *)
Lemma offaxis_total (eyePos : Vec3.t) :
  exists fr, forall fuel,
    calculateOffAxisFrustum (S (S fuel)) eyePos screen near far = Some fr.
Proof.
  destruct (Rle_dec (Vec3.z eyePos) 0) as [Hle | Hgt].
  - eexists. intros fuel. rewrite offaxis_behind by assumption.
    apply offaxis_in_front. simpl. lra.
  - eexists. intros fuel. apply offaxis_in_front. lra.
Qed.

(** C2: for an eye with z > 0 the result is the direct formula, with the
    factor near / eye.z, and near and far are passed through. *)
Theorem offaxis_formula (fuel : nat) (eyePos : Vec3.t) :
  0 < Vec3.z eyePos ->
  exists fr,
    calculateOffAxisFrustum (S fuel) eyePos screen near far = Some fr /\
    FrustumParams.left fr =
      (- (ScreenGeometry.width screen / 2) - Vec3.x eyePos)
      * near / Vec3.z eyePos /\
    FrustumParams.right fr =
      (ScreenGeometry.width screen / 2 - Vec3.x eyePos)
      * near / Vec3.z eyePos /\
    FrustumParams.bottom fr =
      (- (ScreenGeometry.height screen / 2) - Vec3.y eyePos)
      * near / Vec3.z eyePos /\
    FrustumParams.top fr =
      (ScreenGeometry.height screen / 2 - Vec3.y eyePos)
      * near / Vec3.z eyePos /\
    FrustumParams.near fr = near /\
    FrustumParams.far fr = far.
Proof.
  intros Hz. eexists. split; [apply offaxis_in_front; assumption|].
  simpl. unfold Rdiv. repeat split; ring.
Qed.

(** C3: with the eye at (0, 0, D), D > 0, the frustum is symmetric:
    left = -right and bottom = -top. *)
Theorem offaxis_centered_symmetry (fuel : nat) (D : R) :
  0 < D ->
  exists fr,
    calculateOffAxisFrustum (S fuel) (Vec3.mk 0 0 D) screen near far
      = Some fr /\
    FrustumParams.left fr = - FrustumParams.right fr /\
    FrustumParams.bottom fr = - FrustumParams.top fr.
Proof.
  intros HD. eexists. split; [apply offaxis_in_front; assumption|].
  simpl. split; ring.
Qed.

(** C4: an eye with z <= 0 gives exactly the result of the same x and y
    with z = 1, and that result is the direct formula with the divisor 1. *)
Theorem offaxis_nudge (fuel : nat) (x y z : R) :
  z <= 0 ->
  calculateOffAxisFrustum (S (S fuel)) (Vec3.mk x y z) screen near far =
  calculateOffAxisFrustum (S fuel) (Vec3.mk x y 1) screen near far /\
  calculateOffAxisFrustum (S fuel) (Vec3.mk x y 1) screen near far =
  Some (FrustumParams.mk
          ((- (ScreenGeometry.width screen / 2) - x) * (near / 1))
          ((ScreenGeometry.width screen / 2 - x) * (near / 1))
          ((ScreenGeometry.height screen / 2 - y) * (near / 1))
          ((- (ScreenGeometry.height screen / 2) - y) * (near / 1))
          near far).
Proof.
  intros Hz. split.
  - apply (offaxis_behind (S fuel) (Vec3.mk x y z)). assumption.
  - apply (offaxis_in_front fuel (Vec3.mk x y 1)). simpl. lra.
Qed.

End OffAxisFrustum.

(** C2 at the eye (10, -20, 500) of the 344 x 215 screen. *)
Lemma offaxis_formula_witness :
  exists fr,
    KooimaProjection.calculateOffAxisFrustum 1 (Vec3.mk 10 (-20) 500)
      (ScreenGeometry.mk 344 215) 1 10000 = Some fr /\
    FrustumParams.left fr = (- (344 / 2) - 10) * 1 / 500 /\
    FrustumParams.top fr = (215 / 2 - -20) * 1 / 500.
Proof.
  destruct (offaxis_formula (ScreenGeometry.mk 344 215) 1 10000 0
              (Vec3.mk 10 (-20) 500)) as [fr [Hfr [Hl [_ [_ [Ht _]]]]]];
    [simpl; lra|].
  exists fr. split; [exact Hfr|]. split; [exact Hl|exact Ht].
Defined.

(** C3 at D = 600. *)
Lemma offaxis_centered_symmetry_witness :
  exists fr,
    KooimaProjection.calculateOffAxisFrustum 1 (Vec3.mk 0 0 600)
      (ScreenGeometry.mk 344 215) 1 10000 = Some fr /\
    FrustumParams.left fr = - FrustumParams.right fr /\
    FrustumParams.bottom fr = - FrustumParams.top fr.
Proof.
  apply (offaxis_centered_symmetry (ScreenGeometry.mk 344 215) 1 10000 0 600).
  lra.
Defined.

(** C4 at the eye (5, 3, 0): the call equals the call at (5, 3, 1). *)
Lemma offaxis_nudge_witness :
  KooimaProjection.calculateOffAxisFrustum 2 (Vec3.mk 5 3 0)
    (ScreenGeometry.mk 344 215) 1 10000 =
  KooimaProjection.calculateOffAxisFrustum 1 (Vec3.mk 5 3 1)
    (ScreenGeometry.mk 344 215) 1 10000.
Proof.
  apply (offaxis_nudge (ScreenGeometry.mk 344 215) 1 10000 0 5 3 0). lra.
Defined.

(** C1 as stated fails: no run returns the extents -172, 172, -107.5 and
    107.5 for the eye (0, 0, 600). *)
Lemma offaxis_example_not_half_extents :
  ~ exists fuel,
      KooimaProjection.calculateOffAxisFrustum fuel (Vec3.mk 0 0 600)
        (ScreenGeometry.mk 344 215) 1 10000 =
      Some (FrustumParams.mk (-172) 172 107.5 (-107.5) 1 10000).
Proof.
  intros [fuel H]. destruct fuel as [|fuel]; [discriminate|].
  rewrite offaxis_in_front in H by (simpl; lra).
  injection H as Hl _ _ _. simpl in Hl. lra.
Qed.

(** C1, amended: for the 344 x 215 screen, near = 1, far = 10000 and the
    eye (0, 0, 600), the extents are the half-extents 172 and 107.5 scaled
    by 1/600. *)
Theorem offaxis_example (fuel : nat) :
  KooimaProjection.calculateOffAxisFrustum (S fuel) (Vec3.mk 0 0 600)
    (ScreenGeometry.mk 344 215) 1 10000 =
  Some (FrustumParams.mk (-172 / 600) (172 / 600) (107.5 / 600)
          (-107.5 / 600) 1 10000).
Proof.
  rewrite offaxis_in_front by (simpl; lra). simpl.
  f_equal. f_equal; lra.
Qed.

(** ** The generalized projection solver *)

Section GeneralizedProjection.

Import KooimaProjection.

Variables (screenLL screenLR screenUL : Vec3.t) (near far : R).

Local Abbreviation vn := (screenNormal screenLL screenLR screenUL).

(** Perpendicular distance of the eye, as the function computes it. *)
Local Abbreviation distanceTo eyePos := (- dot (sub screenLL eyePos) vn).

Lemma normalize_zero : normalize (Vec3.mk 0 0 0) = Vec3.mk 0 0 0.
Proof.
  unfold normalize. simpl.
  destruct (Req_dec_T (sqrt (0 * 0 + 0 * 0 + 0 * 0)) 0) as [_ | Hne].
  - reflexivity.
  - exfalso. apply Hne.
    replace (0 * 0 + 0 * 0 + 0 * 0) with 0 by ring. apply sqrt_0.
Qed.

Lemma cross_zero_r (v : Vec3.t) : cross v (Vec3.mk 0 0 0) = Vec3.mk 0 0 0.
Proof. unfold cross. simpl. f_equal; ring. Qed.

Lemma dot_zero_r (v : Vec3.t) : dot v (Vec3.mk 0 0 0) = 0.
Proof. unfold dot. simpl. ring. Qed.

(** A vector that [normalize] did not send to zero has unit length. *)
Lemma normalize_unit (v : Vec3.t) :
  normalize v <> Vec3.mk 0 0 0 -> dot (normalize v) (normalize v) = 1.
Proof.
  unfold normalize.
  set (s := Vec3.x v * Vec3.x v + Vec3.y v * Vec3.y v + Vec3.z v * Vec3.z v).
  destruct (Req_dec_T (sqrt s) 0) as [Hz | Hnz]; [congruence|]. intros _.
  assert (Hs : 0 <= s) by (unfold s; nra).
  unfold dot. simpl.
  replace (Vec3.x v / sqrt s * (Vec3.x v / sqrt s) +
           Vec3.y v / sqrt s * (Vec3.y v / sqrt s) +
           Vec3.z v / sqrt s * (Vec3.z v / sqrt s))
    with (s / (sqrt s * sqrt s)) by (unfold s; field; assumption).
  rewrite sqrt_sqrt by assumption. field.
  intros H0. apply Hnz. rewrite H0. apply sqrt_0.
Qed.

(** The two branches of one activation. *)
Lemma generalized_behind (fuel : nat) (eyePos : Vec3.t) :
  distanceTo eyePos <= 0 ->
  calculateGeneralizedProjection (S fuel)
    eyePos screenLL screenLR screenUL near far =
  calculateGeneralizedProjection fuel
    (add eyePos (scale vn (1 - distanceTo eyePos)))
    screenLL screenLR screenUL near far.
Proof.
  intros Hd. cbn [calculateGeneralizedProjection].
  fold vn.
  destruct (Rle_dec (distanceTo eyePos) 0) as [_ | Hgt]; [reflexivity|lra].
Qed.

Lemma generalized_in_front (eyePos : Vec3.t) :
  0 < distanceTo eyePos ->
  exists p, forall fuel,
    calculateGeneralizedProjection (S fuel)
      eyePos screenLL screenLR screenUL near far = Some p.
Proof.
  intros Hd.
  destruct (Rle_dec (distanceTo eyePos) 0) as [Hle | Hgt] eqn:Hdec; [lra|].
  eexists. intros fuel. cbn [calculateGeneralizedProjection].
  fold vn. rewrite Hdec. reflexivity.
Qed.

(** The eye moved by [s] along the normal is at distance d + s * |vn|^2. *)
Lemma distance_nudged (eyePos : Vec3.t) (s : R) :
  distanceTo (add eyePos (scale vn s)) = distanceTo eyePos + s * dot vn vn.
Proof. unfold dot, sub, add, scale. simpl. ring. Qed.

(** With a non-zero normal, two activations are enough: the nudged eye is
    at distance 1. *)
Lemma generalized_total (eyePos : Vec3.t) :
  vn <> Vec3.mk 0 0 0 ->
  exists p, forall fuel,
    calculateGeneralizedProjection (S (S fuel))
      eyePos screenLL screenLR screenUL near far = Some p.
Proof.
  intros Hvn.
  assert (Hunit : dot vn vn = 1) by (apply normalize_unit; exact Hvn).
  destruct (Rle_dec (distanceTo eyePos) 0) as [Hle | Hgt].
  - destruct (generalized_in_front
                (add eyePos (scale vn (1 - distanceTo eyePos)))) as [p Hp].
    + rewrite distance_nudged, Hunit. lra.
    + exists p. intros fuel. rewrite generalized_behind by assumption.
      apply Hp.
  - destruct (generalized_in_front eyePos) as [p Hp]; [lra|].
    exists p. intros fuel. apply Hp.
Qed.

(** With a zero normal the distance is 0, the nudge does not move the eye,
    and every activation starts another one. *)
Lemma generalized_degenerate (fuel : nat) (eyePos : Vec3.t) :
  vn = Vec3.mk 0 0 0 ->
  calculateGeneralizedProjection fuel
    eyePos screenLL screenLR screenUL near far = None.
Proof.
  intros Hvn. revert eyePos.
  induction fuel as [|fuel IH]; intros eyePos; [reflexivity|].
  rewrite generalized_behind.
  - apply IH.
  - rewrite Hvn, dot_zero_r. lra.
Qed.

End GeneralizedProjection.

(** The axis-aligned solver returns after at most one retry, for every
    input. *)
Lemma offaxis_one_retry (eyePos : Vec3.t) (screen : ScreenGeometry.t)
    (near far : R) :
  KooimaProjection.calculateOffAxisFrustum 2 eyePos screen near far <> None.
Proof.
  destruct (offaxis_total screen near far eyePos) as [fr Hfr].
  rewrite (Hfr 0%nat). discriminate.
Qed.

(** So does the generalized solver, for a screen with a non-zero normal. *)
Lemma generalized_one_retry (eyePos screenLL screenLR screenUL : Vec3.t)
    (near far : R) :
  KooimaProjection.screenNormal screenLL screenLR screenUL <> Vec3.mk 0 0 0 ->
  KooimaProjection.calculateGeneralizedProjection 2
    eyePos screenLL screenLR screenUL near far <> None.
Proof.
  intros Hvn.
  destruct (generalized_total screenLL screenLR screenUL near far eyePos Hvn)
    as [p Hp].
  rewrite (Hp 0%nat). discriminate.
Qed.

(** C5 fails on the generalized solver: for a screen whose upper-left corner
    is its lower-left corner the normal is zero, the nudged eye is the eye
    itself, and whatever the number of activations allowed, the call does
    not return. *)
Theorem generalized_zero_height_screen_never_returns :
  forall fuel,
    KooimaProjection.calculateGeneralizedProjection fuel
      (Vec3.mk 0 0 600)
      (Vec3.mk (-172) (-107.5) 0) (Vec3.mk 172 (-107.5) 0)
      (Vec3.mk (-172) (-107.5) 0)
      1 10000 = None.
Proof.
  intros fuel. apply generalized_degenerate.
  unfold KooimaProjection.screenNormal.
  replace (KooimaProjection.sub (Vec3.mk (-172) (-107.5) 0)
             (Vec3.mk (-172) (-107.5) 0))
    with (Vec3.mk 0 0 0)
    by (unfold KooimaProjection.sub; simpl; f_equal; ring).
  rewrite normalize_zero, cross_zero_r. apply normalize_zero.
Qed.

(** ** The One-Euro filter *)

Lemma one_point_zero : 1.0 = 1.
Proof. lra. Qed.

Lemma PI_gt_3 : 3 < PI.
Proof. pose proof PI2_3_2. lra. Qed.

(** The four states of the two low-pass filters of [f]. *)
Ltac low_pass_cases f :=
  unfold LowPassFilter.filter;
  destruct (LowPassFilter._prev (OneEuroFilter._dxFilter f));
  destruct (LowPassFilter._prev (OneEuroFilter._xFilter f)).

Section OneEuro.

Import OneEuroFilter.

(** The smoothing factor lies strictly between 0 and 1. *)
Lemma alpha_bounds (cutoff dt : R) :
  0 < cutoff -> 0 < dt -> 0 < _alpha cutoff dt < 1.
Proof.
  intros Hc Hdt. unfold _alpha. rewrite !one_point_zero.
  pose proof PI_gt_3 as Hpi.
  assert (Hden : 0 < 2 * PI * cutoff) by nra.
  assert (Htau : 0 < 1 / (2 * PI * cutoff)).
  { apply Rdiv_lt_0_compat; lra. }
  assert (Hq : 0 < 1 / (2 * PI * cutoff) / dt).
  { apply Rdiv_lt_0_compat; assumption. }
  set (q := 1 / (2 * PI * cutoff) / dt) in *.
  split.
  - apply Rdiv_lt_0_compat; lra.
  - apply Rmult_lt_reg_r with (1 + q); [lra|].
    replace (1 / (1 + q) * (1 + q)) with 1 by (field; lra). lra.
Qed.

(** With a cutoff of at least 1 Hz and a step of at least one second the
    factor is at least 6/7. *)
Lemma alpha_lower_bound (cutoff dt : R) :
  1 <= cutoff -> 1 <= dt -> 6 / 7 <= _alpha cutoff dt.
Proof.
  intros Hc Hdt. unfold _alpha. rewrite !one_point_zero.
  pose proof PI_gt_3 as Hpi.
  assert (Hden : 6 <= 2 * PI * cutoff) by nra.
  assert (Hq : 0 < 1 / (2 * PI * cutoff) / dt <= 1 / 6).
  { split.
    - apply Rdiv_lt_0_compat; [apply Rdiv_lt_0_compat|]; lra.
    - apply Rmult_le_reg_r with (2 * PI * cutoff * dt); [nra|].
      replace (1 / (2 * PI * cutoff) / dt * (2 * PI * cutoff * dt))
        with 1 by (field; split; lra).
      nra. }
  set (q := 1 / (2 * PI * cutoff) / dt) in *.
  apply Rmult_le_reg_r with (1 + q); [lra|].
  replace (1 / (1 + q) * (1 + q)) with 1 by (field; lra). lra.
Qed.

(** With a cutoff of at most [C] the factor is at most
    8 C dt / (8 C dt + 1). *)
Lemma alpha_upper_bound (cutoff C dt : R) :
  0 < cutoff -> cutoff <= C -> 0 < dt ->
  _alpha cutoff dt <= 8 * C * dt / (8 * C * dt + 1).
Proof.
  intros Hc HC Hdt. unfold _alpha. rewrite !one_point_zero.
  pose proof PI_gt_3 as Hpi3. pose proof PI_4 as Hpi4.
  assert (Hden : 0 < 2 * PI * cutoff) by nra.
  assert (Hq : 0 < 1 / (2 * PI * cutoff) / dt).
  { apply Rdiv_lt_0_compat; [apply Rdiv_lt_0_compat|]; lra. }
  assert (Hqeq : 1 / (2 * PI * cutoff) / dt * (2 * PI * cutoff * dt) = 1)
    by (field; split; lra).
  set (q := 1 / (2 * PI * cutoff) / dt) in *.
  assert (H8c : 2 * PI * cutoff <= 8 * C) by nra.
  assert (H8 : 2 * PI * cutoff * dt <= 8 * C * dt)
    by (apply Rmult_le_compat_r; lra).
  assert (Hone : 1 <= q * (8 * C * dt)).
  { rewrite <- Hqeq. apply Rmult_le_compat_l; lra. }
  assert (Hpos : 0 < 8 * C * dt) by nra.
  apply Rmult_le_reg_r with ((1 + q) * (8 * C * dt + 1)); [nra|].
  replace (1 / (1 + q) * ((1 + q) * (8 * C * dt + 1)))
    with (8 * C * dt + 1) by (field; lra).
  replace (8 * C * dt / (8 * C * dt + 1) * ((1 + q) * (8 * C * dt + 1)))
    with (8 * C * dt * (1 + q)) by (field; lra).
  nra.
Qed.

(** The first sample of a filter without history is returned as it is. *)
Lemma axis_first_sample (f : t) (v timestamp : R) :
  filter (reset f) v timestamp = (Some v, started f v timestamp).
Proof. reflexivity. Qed.

(** After any call, the signal filter holds the value that the call
    returned. *)
Lemma axis_holds_result (f : t) (x timestamp : R) :
  LowPassFilter.prev (_xFilter (snd (filter f x timestamp))) =
  fst (filter f x timestamp).
Proof.
  unfold filter, LowPassFilter.prev.
  destruct (_tPrev f) as [tPrev|].
  - destruct (Rle_dec (timestamp - tPrev) 0) as [Hle | Hgt]; [reflexivity|].
    low_pass_cases f; reflexivity.
  - unfold LowPassFilter.filter.
    destruct (LowPassFilter._prev (_xFilter f)) as [p|]; simpl;
      [f_equal; lra | reflexivity].
Qed.

(** The guard on the time step: the stored value is returned and nothing is
    written. *)
Lemma axis_rejected (f : t) (x timestamp tPrev : R) :
  _tPrev f = Some tPrev -> timestamp <= tPrev ->
  filter f x timestamp = (LowPassFilter.prev (_xFilter f), f).
Proof.
  intros Ht Hle. unfold filter. rewrite Ht.
  destruct (Rle_dec (timestamp - tPrev) 0) as [_ | Hgt]; [reflexivity|lra].
Qed.


(** The value of a later sample [x] on a filter that holds [p], with the
    derivative filter holding [q]. *)
Lemma axis_running_exact (f : t) (x timestamp tPrev p q : R) :
  _tPrev f = Some tPrev -> tPrev < timestamp ->
  LowPassFilter._prev (_xFilter f) = Some p ->
  LowPassFilter._prev (_dxFilter f) = Some q ->
  fst (filter f x timestamp) =
  let dt := timestamp - tPrev in
  let alphaDx := _alpha (dCutoff f) dt in
  let dxSmoothed := alphaDx * ((x - p) / dt) + (1 - alphaDx) * q in
  let alpha := _alpha (minCutoff f + beta f * Rabs dxSmoothed) dt in
  Some (alpha * x + (1 - alpha) * p).
Proof.
  intros Ht Hlt Hp Hq. unfold filter. rewrite Ht.
  destruct (Rle_dec (timestamp - tPrev) 0) as [Hle | _]; [lra|].
  unfold LowPassFilter.filter, LowPassFilter.prev. rewrite Hp, Hq.
  reflexivity.
Qed.

(** On a filter that holds the value [p], a later sample [x] gives
    alpha * x + (1 - alpha) * p, for the factor of a cutoff that is at least
    [minCutoff]. *)
Lemma axis_running (f : t) (x timestamp tPrev p q : R) :
  _tPrev f = Some tPrev -> tPrev < timestamp ->
  LowPassFilter._prev (_xFilter f) = Some p ->
  LowPassFilter._prev (_dxFilter f) = Some q ->
  0 <= beta f ->
  exists cutoff,
    minCutoff f <= cutoff /\
    fst (filter f x timestamp) =
    Some (_alpha cutoff (timestamp - tPrev) * x +
          (1 - _alpha cutoff (timestamp - tPrev)) * p).
Proof.
  intros Ht Hlt Hp Hq Hbeta.
  rewrite (axis_running_exact f x timestamp tPrev p q Ht Hlt Hp Hq).
  cbv zeta. eexists. split; [|reflexivity].
  match goal with
  | |- _ <= _ + _ * Rabs ?v => pose proof (Rabs_pos v)
  end.
  nra.
Qed.



(** C6: on a filter that has been called (with [x0] at [t0], from any
    state), a call whose timestamp is not later than the recorded one returns
    the value that the previous call returned, for every input [x], and
    leaves the filter as it is. *)
Theorem filter_nonpositive_dt (f : t) (x0 t0 x timestamp tPrev : R) :
  _tPrev (snd (filter f x0 t0)) = Some tPrev ->
  timestamp <= tPrev ->
  filter (snd (filter f x0 t0)) x timestamp =
  (fst (filter f x0 t0), snd (filter f x0 t0)).
Proof.
  intros Ht Hle.
  rewrite (axis_rejected _ x timestamp tPrev Ht Hle).
  rewrite axis_holds_result. reflexivity.
Qed.

End OneEuro.

(** C6 on a new filter called with 3 at time 1, then with 7 at time 1. *)
Lemma filter_nonpositive_dt_witness :
  OneEuroFilter.filter
    (snd (OneEuroFilter.filter (OneEuroFilter.new SmoothingOptions.empty) 3 1))
    7 1 =
  (Some 3,
   snd (OneEuroFilter.filter (OneEuroFilter.new SmoothingOptions.empty) 3 1)).
Proof.
  apply (filter_nonpositive_dt (OneEuroFilter.new SmoothingOptions.empty)
           3 1 7 1 1).
  - reflexivity.
  - lra.
Defined.

(** ** The vector filter and its dead zone *)

(** Names the results of the three per-axis calls of a [filter] call. *)
Ltac run_axes f pos timestamp :=
  destruct (OneEuroFilter.filter (Vector3OneEuroFilter._filterX f)
              (Vec3.x pos) timestamp) as [?fx ?aX];
  destruct (OneEuroFilter.filter (Vector3OneEuroFilter._filterY f)
              (Vec3.y pos) timestamp) as [?fy ?aY];
  destruct (OneEuroFilter.filter (Vector3OneEuroFilter._filterZ f)
              (Vec3.z pos) timestamp) as [?fz ?aZ].

Section DeadZone.

Import Vector3OneEuroFilter.

Variables (f : t) (pos : Vec3.t) (timestamp : R).

(** The per-axis filters are run on every call, whatever the dead zone
    decides, and the threshold is not written. *)
Lemma vector_axes :
  _filterX (snd (filter f pos timestamp)) =
    snd (OneEuroFilter.filter (_filterX f) (Vec3.x pos) timestamp) /\
  _filterY (snd (filter f pos timestamp)) =
    snd (OneEuroFilter.filter (_filterY f) (Vec3.y pos) timestamp) /\
  _filterZ (snd (filter f pos timestamp)) =
    snd (OneEuroFilter.filter (_filterZ f) (Vec3.z pos) timestamp) /\
  _deadZone (snd (filter f pos timestamp)) = _deadZone f.
Proof.
  unfold filter.
  run_axes f pos timestamp.
  destruct (Rgt_dec (_deadZone f) 0); [destruct (_lastOutput f) as [last|];
    [destruct (Rlt_dec _ (_deadZone f))|]|]; repeat split; reflexivity.
Qed.

(** Inside the dead zone: the last emitted point is returned and stays the
    remembered one. *)
Lemma vector_suppressed (lastOutput : Position.t) :
  0 < _deadZone f ->
  _lastOutput f = Some lastOutput ->
  distance (filtered f pos timestamp) lastOutput < _deadZone f ->
  fst (filter f pos timestamp) = lastOutput /\
  _lastOutput (snd (filter f pos timestamp)) = Some lastOutput.
Proof.
  unfold filtered, filter. intros Hdz Hlast Hdist.
  run_axes f pos timestamp.
  simpl in Hdist. rewrite Hlast.
  destruct (Rgt_dec (_deadZone f) 0) as [_ | Hn]; [|lra].
  destruct (Rlt_dec (distance (Position.mk fx fy fz) lastOutput) (_deadZone f))
    as [_ | Hn]; [|lra].
  split; reflexivity.
Qed.

(** Outside the dead zone: the filtered point is returned and remembered. *)
Lemma vector_emitted (lastOutput : Position.t) :
  _lastOutput f = Some lastOutput ->
  _deadZone f <= distance (filtered f pos timestamp) lastOutput ->
  fst (filter f pos timestamp) = filtered f pos timestamp /\
  _lastOutput (snd (filter f pos timestamp)) = Some (filtered f pos timestamp).
Proof.
  unfold filtered, filter. intros Hlast Hdist.
  run_axes f pos timestamp.
  simpl in Hdist. rewrite Hlast. simpl.
  destruct (Rgt_dec (_deadZone f) 0) as [_ | _]; [|split; reflexivity].
  destruct (Rlt_dec (distance (Position.mk fx fy fz) lastOutput) (_deadZone f))
    as [Hlt | _]; [lra|].
  split; reflexivity.
Qed.

(** The point returned is the filtered point or the last emitted one. *)
Lemma vector_output_cases :
  fst (filter f pos timestamp) = filtered f pos timestamp \/
  _lastOutput f = Some (fst (filter f pos timestamp)).
Proof.
  unfold filtered, filter.
  run_axes f pos timestamp.
  destruct (Rgt_dec (_deadZone f) 0); [|left; reflexivity].
  destruct (_lastOutput f) as [last|]; [|left; reflexivity].
  destruct (Rlt_dec _ (_deadZone f)); [right|left]; reflexivity.
Qed.

(** A filter without history emits the raw sample. *)
Lemma vector_fresh :
  f = reset f ->
  filter f pos timestamp =
  (Position.mk (Some (Vec3.x pos)) (Some (Vec3.y pos)) (Some (Vec3.z pos)),
   mk (OneEuroFilter.started (_filterX f) (Vec3.x pos) timestamp)
      (OneEuroFilter.started (_filterY f) (Vec3.y pos) timestamp)
      (OneEuroFilter.started (_filterZ f) (Vec3.z pos) timestamp)
      (_deadZone f)
      (Some (Position.mk (Some (Vec3.x pos)) (Some (Vec3.y pos))
               (Some (Vec3.z pos))))).
Proof.
  intros Hf. rewrite Hf at 1. unfold filter, reset.
  cbn [_filterX _filterY _filterZ _deadZone _lastOutput].
  rewrite !axis_first_sample.
  destruct (Rgt_dec (_deadZone f) 0); reflexivity.
Qed.

(** On the filter left by a first sample, a sample whose timestamp is not
    later is answered with the first sample, and nothing is written. *)
Lemma vector_fresh_then_not_later (pos' : Vec3.t) (timestamp' : R) :
  f = reset f -> 0 < _deadZone f -> timestamp' <= timestamp ->
  filter (snd (filter f pos timestamp)) pos' timestamp' =
  filter f pos timestamp.
Proof.
  intros Hf Hdz Hle. rewrite (vector_fresh Hf).
  cbn [snd]. unfold filter at 1.
  cbn [_filterX _filterY _filterZ _deadZone _lastOutput].
  rewrite !(axis_rejected _ _ timestamp' timestamp) by (reflexivity || lra).
  cbn [LowPassFilter.prev OneEuroFilter._xFilter OneEuroFilter.started
       LowPassFilter._prev].
  destruct (Rgt_dec (_deadZone f) 0) as [_ | Hn]; [|lra].
  match goal with
  | |- context [Rlt_dec ?d (_deadZone f)] =>
      destruct (Rlt_dec d (_deadZone f)) as [_ | Hn]
  end; [reflexivity|].
  exfalso. apply Hn. unfold distance. simpl.
  replace ((Vec3.x pos - Vec3.x pos) * (Vec3.x pos - Vec3.x pos) +
           (Vec3.y pos - Vec3.y pos) * (Vec3.y pos - Vec3.y pos) +
           (Vec3.z pos - Vec3.z pos) * (Vec3.z pos - Vec3.z pos))
    with 0 by ring.
  rewrite sqrt_0. exact Hdz.
Qed.

(** C7: with a dead zone of 2.0 mm and an emitted point, a filtered point
    closer than 2.0 mm to it (at 1.0 mm, say) gives the emitted point again
    and leaves it remembered; a filtered point at 2.0 mm or more (at 3.0 mm,
    say) is returned and becomes the remembered point. *)
Theorem dead_zone_2mm (lastOutput : Position.t) :
  _deadZone f = 2.0 ->
  _lastOutput f = Some lastOutput ->
  (distance (filtered f pos timestamp) lastOutput < 2.0 ->
   fst (filter f pos timestamp) = lastOutput /\
   _lastOutput (snd (filter f pos timestamp)) = Some lastOutput) /\
  (2.0 <= distance (filtered f pos timestamp) lastOutput ->
   fst (filter f pos timestamp) = filtered f pos timestamp /\
   _lastOutput (snd (filter f pos timestamp)) =
     Some (filtered f pos timestamp)).
Proof.
  intros Hdz Hlast. split; intros Hdist.
  - apply (vector_suppressed lastOutput); [lra | assumption | lra].
  - apply (vector_emitted lastOutput); [assumption | lra].
Qed.


End DeadZone.

(** ** The dead zone on a running filter *)

Lemma new_is_fresh (options : SmoothingOptions.t) :
  Vector3OneEuroFilter.new options =
  Vector3OneEuroFilter.reset (Vector3OneEuroFilter.new options).
Proof. reflexivity. Qed.

(** [startedAtOrigin] holds the origin on each axis, at time 0, and
    remembers the origin as the emitted point. *)
Lemma startedAtOrigin_state :
  startedAtOrigin =
  Vector3OneEuroFilter.mk
    (OneEuroFilter.mk 1.0 0.5 1.0 (LowPassFilter.mk (Some 0))
       (LowPassFilter.mk (Some 0)) (Some 0))
    (OneEuroFilter.mk 1.0 0.5 1.0 (LowPassFilter.mk (Some 0))
       (LowPassFilter.mk (Some 0)) (Some 0))
    (OneEuroFilter.mk 1.0 0.5 1.0 (LowPassFilter.mk (Some 0))
       (LowPassFilter.mk (Some 0)) (Some 0))
    2.0 (Some (Position.mk (Some 0) (Some 0) (Some 0))).
Proof.
  unfold startedAtOrigin.
  rewrite (vector_fresh _ _ _ (new_is_fresh SmoothingOptions.empty)).
  reflexivity.
Qed.

(** The filtered point of a sample at time 1 on [startedAtOrigin]: each
    coordinate is the sample's, scaled by a factor of at least 6/7 and less
    than 1. *)
Lemma startedAtOrigin_filtered (pos : Vec3.t) :
  exists ax ay az,
    (6 / 7 <= ax < 1) /\ (6 / 7 <= ay < 1) /\ (6 / 7 <= az < 1) /\
    Vector3OneEuroFilter.filtered startedAtOrigin pos 1 =
    Position.mk (Some (ax * Vec3.x pos)) (Some (ay * Vec3.y pos))
      (Some (az * Vec3.z pos)).
Proof.
  rewrite startedAtOrigin_state. unfold Vector3OneEuroFilter.filtered.
  cbn [Vector3OneEuroFilter._filterX Vector3OneEuroFilter._filterY
       Vector3OneEuroFilter._filterZ].
  assert (Haxis : forall v, exists a, 6 / 7 <= a < 1 /\
    fst (OneEuroFilter.filter
           (OneEuroFilter.mk 1.0 0.5 1.0 (LowPassFilter.mk (Some 0))
              (LowPassFilter.mk (Some 0)) (Some 0)) v 1) = Some (a * v)).
  { intros v.
    destruct (axis_running
                (OneEuroFilter.mk 1.0 0.5 1.0 (LowPassFilter.mk (Some 0))
                   (LowPassFilter.mk (Some 0)) (Some 0)) v 1 0 0 0)
      as [cutoff [Hc Hv]]; try reflexivity; try (simpl; lra).
    simpl in Hc. exists (OneEuroFilter._alpha cutoff (1 - 0)). split.
    - split.
      + apply alpha_lower_bound; lra.
      + apply alpha_bounds; lra.
    - rewrite Hv. f_equal. ring. }
  destruct (Haxis (Vec3.x pos)) as [ax [Hax Hx]].
  destruct (Haxis (Vec3.y pos)) as [ay [Hay Hy]].
  destruct (Haxis (Vec3.z pos)) as [az [Haz Hz]].
  exists ax, ay, az. rewrite Hx, Hy, Hz. repeat split; lra.
Qed.

Lemma distance_from_origin (a b c : R) :
  Vector3OneEuroFilter.distance (Position.mk (Some a) (Some b) (Some c))
    (Position.mk (Some 0) (Some 0) (Some 0)) = sqrt (a * a + b * b + c * c).
Proof. unfold Vector3OneEuroFilter.distance. simpl. f_equal. ring. Qed.

Lemma sqrt_4 : sqrt 4 = 2.
Proof. replace 4 with (2 * 2) by ring. apply sqrt_square. lra. Qed.

(** A sample 1 mm away from the origin is filtered to less than 2 mm from
    it. *)
Lemma startedAtOrigin_near_sample :
  Vector3OneEuroFilter.distance
    (Vector3OneEuroFilter.filtered startedAtOrigin (Vec3.mk 1 0 0) 1)
    (Position.mk (Some 0) (Some 0) (Some 0)) < 2.
Proof.
  destruct (startedAtOrigin_filtered (Vec3.mk 1 0 0))
    as [ax [ay [az [Hax [Hay [Haz Hf]]]]]].
  rewrite Hf, distance_from_origin. cbn [Vec3.x Vec3.y Vec3.z].
  rewrite <- sqrt_4. apply sqrt_lt_1_alt. nra.
Qed.

(** A sample 1000 mm away from the origin is filtered to at least 2 mm from
    it. *)
Lemma startedAtOrigin_far_sample :
  2 <= Vector3OneEuroFilter.distance
         (Vector3OneEuroFilter.filtered startedAtOrigin (Vec3.mk 1000 0 0) 1)
         (Position.mk (Some 0) (Some 0) (Some 0)).
Proof.
  destruct (startedAtOrigin_filtered (Vec3.mk 1000 0 0))
    as [ax [ay [az [Hax [Hay [Haz Hf]]]]]].
  rewrite Hf, distance_from_origin. cbn [Vec3.x Vec3.y Vec3.z].
  rewrite <- sqrt_4. apply sqrt_le_1_alt. nra.
Qed.

(** C7 on [startedAtOrigin]: the sample (1, 0, 0) at time 1 is answered with
    the origin, the sample (1000, 0, 0) with its filtered point. *)
Lemma dead_zone_2mm_witness :
  fst (Vector3OneEuroFilter.filter startedAtOrigin (Vec3.mk 1 0 0) 1) =
    Position.mk (Some 0) (Some 0) (Some 0) /\
  fst (Vector3OneEuroFilter.filter startedAtOrigin (Vec3.mk 1000 0 0) 1) =
    Vector3OneEuroFilter.filtered startedAtOrigin (Vec3.mk 1000 0 0) 1.
Proof.
  assert (Hdz : Vector3OneEuroFilter._deadZone startedAtOrigin = 2.0)
    by (rewrite startedAtOrigin_state; reflexivity).
  assert (Hlast : Vector3OneEuroFilter._lastOutput startedAtOrigin =
                  Some (Position.mk (Some 0) (Some 0) (Some 0)))
    by (rewrite startedAtOrigin_state; reflexivity).
  split.
  - apply (dead_zone_2mm startedAtOrigin (Vec3.mk 1 0 0) 1
             (Position.mk (Some 0) (Some 0) (Some 0)) Hdz Hlast).
    pose proof startedAtOrigin_near_sample. lra.
  - apply (dead_zone_2mm startedAtOrigin (Vec3.mk 1000 0 0) 1
             (Position.mk (Some 0) (Some 0) (Some 0)) Hdz Hlast).
    pose proof startedAtOrigin_far_sample. lra.
Defined.




(** ** The head pose estimator *)

Section Estimator.

Import HeadPoseEstimator.

(** What [estimate] does to the tracking flag: it is set exactly when
    landmarks were given. *)
Lemma estimate_wasTracking (e : t) (landmarks : option (list Vec3.t))
    (now : R) :
  _wasTracking (snd (estimate e landmarks now)) = negb (absent landmarks).
Proof.
  unfold estimate.
  destruct landmarks as [[|l0 ls]|]; simpl absent; cbn [negb].
  - destruct (_wasTracking e) eqn:Hw; [reflexivity|exact Hw].
  - destruct (nth_error (l0 :: ls) 1) as [nose|]; [|reflexivity].
    match goal with
    | |- context [match ?d with Return _ => _ | Throw _ => _ end] =>
        destruct d as [z|err]
    end; [|reflexivity].
    match goal with
    | |- context [Vector3OneEuroFilter.filter ?f ?p ?t] =>
        destruct (Vector3OneEuroFilter.filter f p t) as [out f']
    end.
    reflexivity.
  - destruct (_wasTracking e) eqn:Hw; [reflexivity|exact Hw].
Qed.

(** Absent landmarks: none is returned, and the estimator is reset when the
    tracking flag is set. *)
Lemma estimate_absent_step (e : t) (landmarks : option (list Vec3.t))
    (now : R) :
  absent landmarks = true ->
  estimate e landmarks now =
  (Return None, if _wasTracking e then reset e else e).
Proof.
  intros Habs. unfold estimate, reset.
  destruct landmarks as [[|l0 ls]|]; try discriminate;
    destruct (_wasTracking e); reflexivity.
Qed.

(** A frame with landmarks: the raw position goes through the vector filter
    at time [now / 1000]. *)
Lemma estimate_tracked (e : t) (landmarks : list Vec3.t) (nose : Vec3.t)
    (depth now : R) :
  nth_error landmarks 1 = Some nose ->
  depthOf e landmarks = Return depth ->
  estimate e (Some landmarks) now =
  (Return (Some (fst (Vector3OneEuroFilter.filter (_filter e)
                        (rawPosition e nose depth) (now / 1000)))),
   set_filter (set_wasTracking e true)
     (snd (Vector3OneEuroFilter.filter (_filter e)
             (rawPosition e nose depth) (now / 1000)))).
Proof.
  intros Hnose Hdepth. unfold estimate.
  destruct landmarks as [|l0 ls]; [discriminate|].
  rewrite Hnose.
  change (if _useIrisDepth (set_wasTracking e true)
          then match _focalLengthPx (set_wasTracking e true) with
               | Some _ =>
                   _estimateDepthFromIris (set_wasTracking e true) (l0 :: ls)
               | None => Return (_defaultZ (set_wasTracking e true))
               end
          else Return (_defaultZ (set_wasTracking e true)))
    with (depthOf e (l0 :: ls)).
  rewrite Hdepth.
  change (_filter (set_wasTracking e true)) with (_filter e).
  unfold rawPosition.
  cbn [set_wasTracking _screenW _screenH _sensX _sensY _sensZ _defaultZ].
  destruct (Vector3OneEuroFilter.filter (_filter e) _ (now / 1000))
    as [out f'].
  reflexivity.
Qed.

(** Landmarks whose iris can be measured include the nose tip. *)
Lemma irisWidthPx_nose (e : t) (landmarks : list Vec3.t) (irisPx : R) :
  _irisWidthPx e landmarks = Return irisPx ->
  exists nose, nth_error landmarks 1 = Some nose.
Proof.
  unfold _irisWidthPx. intros H.
  destruct (nth_error landmarks 469) as [l469|] eqn:H469; [|discriminate].
  assert (Hlen : (469 < List.length landmarks)%nat).
  { apply nth_error_Some. rewrite H469. discriminate. }
  destruct (nth_error landmarks 1) as [nose|] eqn:H1.
  - exists nose. reflexivity.
  - apply nth_error_None in H1. lia.
Qed.

Lemma IRIS_DIAMETER_MM_pos : 0 < IRIS_DIAMETER_MM.
Proof. unfold IRIS_DIAMETER_MM. lra. Qed.

(** A successful calibration returns and stores the focal length and turns
    iris depth on. *)
Lemma calibrate_ok (e : t) (landmarks : list Vec3.t) (distanceMm irisPx : R) :
  _irisWidthPx e landmarks = Return irisPx ->
  MIN_IRIS_PX <= irisPx ->
  calibrate e landmarks distanceMm =
  (Return (irisPx * distanceMm / IRIS_DIAMETER_MM),
   set_calibration e (irisPx * distanceMm / IRIS_DIAMETER_MM)).
Proof.
  intros Hw Hmin. unfold calibrate. rewrite Hw.
  destruct (Rlt_dec irisPx MIN_IRIS_PX) as [Hlt | _]; [lra|reflexivity].
Qed.

(** The pinhole round trip: after calibration at [distanceMm], the depth
    measured on the same landmarks is [distanceMm]. *)
Lemma depth_after_calibrate (e : t) (landmarks : list Vec3.t)
    (distanceMm irisPx : R) :
  _irisWidthPx e landmarks = Return irisPx ->
  MIN_IRIS_PX <= irisPx ->
  depthOf (snd (calibrate e landmarks distanceMm)) landmarks =
  Return distanceMm.
Proof.
  intros Hw Hmin. rewrite (calibrate_ok e landmarks distanceMm irisPx Hw Hmin).
  unfold depthOf, _estimateDepthFromIris.
  cbn [snd set_calibration _useIrisDepth _focalLengthPx _defaultZ].
  change (_irisWidthPx
            (set_calibration e (irisPx * distanceMm / IRIS_DIAMETER_MM))
            landmarks) with (_irisWidthPx e landmarks).
  rewrite Hw.
  destruct (Rlt_dec irisPx MIN_IRIS_PX) as [Hlt | _]; [lra|].
  f_equal. unfold toNumber. pose proof IRIS_DIAMETER_MM_pos.
  unfold MIN_IRIS_PX in Hmin. field. split; lra.
Qed.


(** C8, amended: on an estimator whose vector filter holds no history and
    whose depth sensitivity is 1, calibrating at [distanceMm] on landmarks
    with an iris width of at least 5 px stores the focal length
    irisPx * distanceMm / IRIS_DIAMETER_MM and turns iris depth on, and
    [estimate] on the same landmarks then returns the depth [distanceMm]. *)
Theorem calibrate_then_estimate (e : t) (landmarks : list Vec3.t)
    (distanceMm irisPx now : R) :
  _irisWidthPx e landmarks = Return irisPx ->
  MIN_IRIS_PX <= irisPx ->
  _sensZ e = 1 ->
  _filter e = Vector3OneEuroFilter.reset (_filter e) ->
  fst (calibrate e landmarks distanceMm) =
    Return (irisPx * distanceMm / IRIS_DIAMETER_MM) /\
  _useIrisDepth (snd (calibrate e landmarks distanceMm)) = true /\
  exists p,
    fst (estimate (snd (calibrate e landmarks distanceMm))
           (Some landmarks) now) = Return (Some p) /\
    Position.z p = Some distanceMm.
Proof.
  intros Hw Hmin Hsens Hfresh.
  destruct (irisWidthPx_nose e landmarks irisPx Hw) as [nose Hnose].
  pose proof (depth_after_calibrate e landmarks distanceMm irisPx Hw Hmin)
    as Hdepth.
  rewrite (estimate_tracked _ landmarks nose distanceMm now Hnose Hdepth).
  rewrite (calibrate_ok e landmarks distanceMm irisPx Hw Hmin).
  cbn [fst snd set_calibration _useIrisDepth _filter].
  split; [reflexivity|]. split; [reflexivity|].
  rewrite (vector_fresh (_filter e) _ (now / 1000) Hfresh).
  eexists. split; [reflexivity|].
  unfold rawPosition.
  cbn [fst Position.z Vec3.z set_calibration _defaultZ _sensZ].
  rewrite Hsens. f_equal. ring.
Qed.

End Estimator.

(** ** The estimator of [main.js] on the sample frame *)

Lemma nth_error_repeat_app {A : Type} (a : A) (n k : nat) (l : list A) :
  nth_error (repeat a n ++ l) (n + k) = nth_error l k.
Proof. induction n as [|n IH]; [reflexivity|exact IH]. Qed.

Lemma sampleFrame_nose : nth_error sampleFrame 1 = Some (Vec3.mk 0.5 0.5 0).
Proof. reflexivity. Qed.

(** The iris of the sample frame is 64 px wide at a video width of 640. *)
Lemma sampleFrame_irisWidthPx (e : HeadPoseEstimator.t) :
  HeadPoseEstimator._videoW e = 640 ->
  HeadPoseEstimator._irisWidthPx e sampleFrame = Return 64.
Proof.
  intros Hw. unfold HeadPoseEstimator._irisWidthPx, sampleFrame.
  rewrite (nth_error_repeat_app _ 469 0), (nth_error_repeat_app _ 469 2),
    (nth_error_repeat_app _ 469 5), (nth_error_repeat_app _ 469 7).
  cbn [nth_error Vec3.x]. rewrite Hw.
  rewrite Rabs_left by lra. f_equal. lra.
Qed.

(** [trackingEstimator] is the new estimator with the tracking flag set and
    the vector filter left by the first sample, the default depth 600. *)
Lemma trackingEstimator_state :
  trackingEstimator =
  HeadPoseEstimator.set_filter
    (HeadPoseEstimator.set_wasTracking
       (HeadPoseEstimator.new Main.headPoseEstimatorConfig) true)
    (snd (Vector3OneEuroFilter.filter
            (HeadPoseEstimator._filter
               (HeadPoseEstimator.new Main.headPoseEstimatorConfig))
            (HeadPoseEstimator.rawPosition
               (HeadPoseEstimator.new Main.headPoseEstimatorConfig)
               (Vec3.mk 0.5 0.5 0) 600)
            (0 / 1000))).
Proof.
  unfold trackingEstimator.
  rewrite (estimate_tracked _ sampleFrame (Vec3.mk 0.5 0.5 0) 600 0
             sampleFrame_nose); reflexivity.
Qed.

(** On [trackingEstimator], calibrating at 2000 mm and estimating at the
    same clock reading returns the depth 600 of the frame before. *)
Lemma trackingEstimator_calibrate_then_estimate :
  exists p,
    fst (HeadPoseEstimator.estimate
           (snd (HeadPoseEstimator.calibrate trackingEstimator sampleFrame 2000))
           (Some sampleFrame) 0) = Return (Some p) /\
    Position.z p = Some 600.
Proof.
  assert (Hw : HeadPoseEstimator._irisWidthPx trackingEstimator sampleFrame
               = Return 64).
  { apply sampleFrame_irisWidthPx. rewrite trackingEstimator_state.
    reflexivity. }
  assert (Hmin : MIN_IRIS_PX <= 64) by (unfold MIN_IRIS_PX; lra).
  pose proof (depth_after_calibrate trackingEstimator sampleFrame 2000 64
                Hw Hmin) as Hdepth.
  rewrite (estimate_tracked _ sampleFrame (Vec3.mk 0.5 0.5 0) 2000 0
             sampleFrame_nose Hdepth).
  rewrite (calibrate_ok trackingEstimator sampleFrame 2000 64 Hw Hmin).
  cbn [fst snd HeadPoseEstimator.set_calibration HeadPoseEstimator._filter].
  replace (HeadPoseEstimator._filter trackingEstimator)
    with (snd (Vector3OneEuroFilter.filter
            (HeadPoseEstimator._filter
               (HeadPoseEstimator.new Main.headPoseEstimatorConfig))
            (HeadPoseEstimator.rawPosition
               (HeadPoseEstimator.new Main.headPoseEstimatorConfig)
               (Vec3.mk 0.5 0.5 0) 600)
            (0 / 1000)))
    by (rewrite trackingEstimator_state; reflexivity).
  rewrite vector_fresh_then_not_later;
    [ | reflexivity | simpl; lra | lra ].
  rewrite vector_fresh by reflexivity.
  eexists. split; [reflexivity|].
  simpl. f_equal. lra.
Qed.

(** The vector filter of [trackingEstimator]: each axis holds the first raw
    coordinate, recorded at time 0, and the first point is remembered. *)
Lemma trackingEstimator_filter :
  HeadPoseEstimator._filter trackingEstimator =
  Vector3OneEuroFilter.mk
    (OneEuroFilter.mk 1.0 0.5 1.0
       (LowPassFilter.mk (Some ((0.5 - 0.5) * 344 * 1.0)))
       (LowPassFilter.mk (Some 0)) (Some (0 / 1000)))
    (OneEuroFilter.mk 1.0 0.5 1.0
       (LowPassFilter.mk (Some ((0.5 - 0.5) * 215 * 1.0)))
       (LowPassFilter.mk (Some 0)) (Some (0 / 1000)))
    (OneEuroFilter.mk 1.0 0.5 1.0
       (LowPassFilter.mk (Some (600 + (600 - 600) * 1.0)))
       (LowPassFilter.mk (Some 0)) (Some (0 / 1000)))
    2.0
    (Some (Position.mk (Some ((0.5 - 0.5) * 344 * 1.0))
             (Some ((0.5 - 0.5) * 215 * 1.0))
             (Some (600 + (600 - 600) * 1.0)))).
Proof.
  rewrite trackingEstimator_state.
  cbn [HeadPoseEstimator.set_filter HeadPoseEstimator._filter].
  rewrite vector_fresh by reflexivity. reflexivity.
Qed.

(** The depth axis of [trackingEstimator] on the sample 2000 one millisecond
    later: the filtered depth is at most 1975. *)
Lemma trackingEstimator_depth_one_ms_later :
  exists z,
    fst (OneEuroFilter.filter
           (OneEuroFilter.mk 1.0 0.5 1.0
              (LowPassFilter.mk (Some (600 + (600 - 600) * 1.0)))
              (LowPassFilter.mk (Some 0)) (Some (0 / 1000)))
           (600 + (2000 - 600) * 1.0) (1 / 1000)) = Some z /\
    z <= 1975.
Proof.
  rewrite (axis_running_exact _ _ _ (0 / 1000) (600 + (600 - 600) * 1.0) 0);
    try reflexivity; [|lra].
  cbv zeta.
  cbn [OneEuroFilter.dCutoff OneEuroFilter.minCutoff OneEuroFilter.beta].
  replace (1 / 1000 - 0 / 1000) with (1 / 1000) by lra.
  replace ((600 + (2000 - 600) * 1.0 - (600 + (600 - 600) * 1.0)) / (1 / 1000))
    with 1400000 by lra.
  pose proof (alpha_bounds 1.0 (1 / 1000)) as [Hd0 _]; [lra | lra |].
  pose proof (alpha_upper_bound 1.0 1 (1 / 1000)) as Hd1.
  assert (Hd : OneEuroFilter._alpha 1.0 (1 / 1000) <= 1 / 126)
    by (apply Rle_trans with (8 * 1 * (1 / 1000) / (8 * 1 * (1 / 1000) + 1));
        [apply Hd1; lra | lra]).
  clear Hd1. set (alphaDx := OneEuroFilter._alpha 1.0 (1 / 1000)) in *.
  assert (Hdx : Rabs (alphaDx * 1400000 + (1 - alphaDx) * 0) <= 11112).
  { rewrite Rabs_pos_eq; lra. }
  pose proof (Rabs_pos (alphaDx * 1400000 + (1 - alphaDx) * 0)) as Hdx0.
  set (speed := Rabs (alphaDx * 1400000 + (1 - alphaDx) * 0)) in *.
  pose proof (alpha_upper_bound (1.0 + 0.5 * speed) 5557 (1 / 1000)) as Ha.
  assert (Halpha : OneEuroFilter._alpha (1.0 + 0.5 * speed) (1 / 1000)
                   <= 98 / 100)
    by (apply Rle_trans
          with (8 * 5557 * (1 / 1000) / (8 * 5557 * (1 / 1000) + 1));
        [apply Ha; lra | lra]).
  clear Ha.
  set (alpha := OneEuroFilter._alpha (1.0 + 0.5 * speed) (1 / 1000)) in *.
  eexists. split; [reflexivity|]. lra.
Qed.

(** On [trackingEstimator], calibrating at 2000 mm and estimating one
    millisecond later returns a depth of at most 1975. *)
Lemma trackingEstimator_calibrate_then_estimate_later :
  exists p z,
    fst (HeadPoseEstimator.estimate
           (snd (HeadPoseEstimator.calibrate trackingEstimator sampleFrame 2000))
           (Some sampleFrame) 1) = Return (Some p) /\
    Position.z p = Some z /\
    z <= 1975.
Proof.
  assert (Hw : HeadPoseEstimator._irisWidthPx trackingEstimator sampleFrame
               = Return 64).
  { apply sampleFrame_irisWidthPx. rewrite trackingEstimator_state.
    reflexivity. }
  assert (Hmin : MIN_IRIS_PX <= 64) by (unfold MIN_IRIS_PX; lra).
  pose proof (depth_after_calibrate trackingEstimator sampleFrame 2000 64
                Hw Hmin) as Hdepth.
  rewrite (estimate_tracked _ sampleFrame (Vec3.mk 0.5 0.5 0) 2000 1
             sampleFrame_nose Hdepth).
  rewrite (calibrate_ok trackingEstimator sampleFrame 2000 64 Hw Hmin).
  cbn [fst snd HeadPoseEstimator.set_calibration HeadPoseEstimator._filter].
  match goal with
  | |- context [Vector3OneEuroFilter.filter ?f ?r ?t] =>
      destruct (vector_output_cases f r t) as [Hout | Hout]
  end.
  - rewrite Hout.
    destruct trackingEstimator_depth_one_ms_later as [z [Hz Hle]].
    eexists. exists z. split; [reflexivity|]. split; [|exact Hle].
    unfold Vector3OneEuroFilter.filtered. cbn [Position.z].
    rewrite trackingEstimator_filter.
    cbn [Vector3OneEuroFilter._filterZ]. rewrite <- Hz.
    f_equal. f_equal. unfold HeadPoseEstimator.rawPosition.
    cbn [Vec3.z]. rewrite trackingEstimator_state. reflexivity.
  - pose proof (f_equal Vector3OneEuroFilter._lastOutput
                  trackingEstimator_filter) as Hlast.
    cbn [Vector3OneEuroFilter._lastOutput] in Hlast.
    rewrite Hlast in Hout. injection Hout as Hout. rewrite <- Hout.
    eexists. eexists. split; [reflexivity|]. split; [reflexivity|]. lra.
Qed.

(** C8 as stated fails: on [trackingEstimator], whose sample frame has an
    iris width of 64 px, calibrating at 2000 mm and estimating on the same
    landmarks, with depth sensitivity 1, does not return a depth within
    10 mm of 2000, neither at the same clock reading nor one millisecond
    later. *)
Lemma calibrate_then_estimate_smoothed :
  HeadPoseEstimator._irisWidthPx trackingEstimator sampleFrame = Return 64 /\
  HeadPoseEstimator._sensZ trackingEstimator = 1 /\
  (~ exists p z,
      fst (HeadPoseEstimator.estimate
             (snd (HeadPoseEstimator.calibrate
                     trackingEstimator sampleFrame 2000))
             (Some sampleFrame) 0) = Return (Some p) /\
      Position.z p = Some z /\
      Rabs (z - 2000) <= 10) /\
  (~ exists p z,
      fst (HeadPoseEstimator.estimate
             (snd (HeadPoseEstimator.calibrate
                     trackingEstimator sampleFrame 2000))
             (Some sampleFrame) 1) = Return (Some p) /\
      Position.z p = Some z /\
      Rabs (z - 2000) <= 10).
Proof.
  split; [|split; [|split]].
  - apply sampleFrame_irisWidthPx. rewrite trackingEstimator_state.
    reflexivity.
  - rewrite trackingEstimator_state. simpl. lra.
  - intros [p [z [Hp [Hz Hnear]]]].
    destruct trackingEstimator_calibrate_then_estimate as [p' [Hp' Hz']].
    rewrite Hp in Hp'. injection Hp' as Heq. subst p'.
    rewrite Hz in Hz'. injection Hz' as Hz600. subst z.
    rewrite Rabs_left in Hnear by lra. lra.
  - intros [p [z [Hp [Hz Hnear]]]].
    destruct trackingEstimator_calibrate_then_estimate_later
      as [p' [z' [Hp' [Hz' Hle]]]].
    rewrite Hp in Hp'. injection Hp' as Heq. subst p'.
    rewrite Hz in Hz'. injection Hz' as Heq. subst z'.
    rewrite Rabs_left in Hnear by lra. lra.
Qed.

(** C8 on the new estimator of [main.js]: calibrating at 600 mm on the
    sample frame and estimating on it returns the depth 600. *)
Lemma calibrate_then_estimate_witness :
  exists p,
    fst (HeadPoseEstimator.estimate
           (snd (HeadPoseEstimator.calibrate
                   (HeadPoseEstimator.new Main.headPoseEstimatorConfig)
                   sampleFrame 600))
           (Some sampleFrame) 0) = Return (Some p) /\
    Position.z p = Some 600.
Proof.
  destruct (calibrate_then_estimate
              (HeadPoseEstimator.new Main.headPoseEstimatorConfig)
              sampleFrame 600 64 0) as [_ [_ Hp]].
  - apply sampleFrame_irisWidthPx. reflexivity.
  - unfold MIN_IRIS_PX. lra.
  - simpl. lra.
  - reflexivity.
  - exact Hp.
Defined.


(** ** The examples of the specification on binary64 numbers *)

Section Binary64Examples.

Import PrimFloat Binary64.

Local Open Scope float_scope.

(* The decimal constants below are the shortest that denote the computed
   binary64 values. *)
#[local] Set Warnings "-inexact-float".

(** The end-to-end example as the engine computes it: the extents are the
    half-extents scaled by 1/600, rounded. *)
Example binary64_example :
  calculateOffAxisFrustum 1 (mkVec3 0 0 600) (mkScreen 344 215) 1 10000 =
  Some (mkFrustum (-0.28666666666666668) 0.28666666666666668
          0.17916666666666667 (-0.17916666666666667) 1 10000).
Proof. vm_compute. reflexivity. Qed.

(** Centred eye: the computed extents are opposite, exactly. *)
Example binary64_centered_symmetry :
  match calculateOffAxisFrustum 1 (mkVec3 0 0 600) (mkScreen 344 215)
          1 10000 with
  | Some fr => (left fr =? - right fr) && (bottom fr =? - top fr)
  | None => false
  end = true.
Proof. vm_compute. reflexivity. Qed.

(** Degenerate eye: (5, 3, 0) gives the frustum of the eye (5, 3, 1), and
    its fields are finite numbers. *)
Example binary64_nudge :
  calculateOffAxisFrustum 2 (mkVec3 5 3 0) (mkScreen 344 215) 1 10000 =
  calculateOffAxisFrustum 1 (mkVec3 5 3 1) (mkScreen 344 215) 1 10000 /\
  calculateOffAxisFrustum 2 (mkVec3 5 3 0) (mkScreen 344 215) 1 10000 =
  Some (mkFrustum (-177) 167 104.5 (-110.5) 1 10000) /\
  option_map finite
    (calculateOffAxisFrustum 2 (mkVec3 5 3 0) (mkScreen 344 215) 1 10000)
  = Some true.
Proof. vm_compute. repeat split; reflexivity. Qed.

End Binary64Examples.

(** ** More on the off-axis projection solver *)

Section OffAxisFrustumShape.

Import KooimaProjection.

Variables (screen : ScreenGeometry.t) (near far : R).

(** The divisor of the call that computes the result: the eye's z in front
    of the screen plane, 1 otherwise. *)
Local Abbreviation effectiveDistance eyePos :=
  (if Rle_dec (Vec3.z eyePos) 0 then 1 else Vec3.z eyePos).

(** X1: for a screen of positive size and a positive near plane, every eye
    position, in front of the screen plane or not, gets a frustum whose
    near-plane rectangle is the screen scaled by near / d, where d is the
    eye's z in front of the plane and the fallback distance 1 on or behind
    it: it is not inverted (left < right, bottom < top). *)
Theorem offaxis_frustum_rectangle (eyePos : Vec3.t) :
  0 < ScreenGeometry.width screen ->
  0 < ScreenGeometry.height screen ->
  0 < near ->
  exists fr,
    (forall fuel,
       calculateOffAxisFrustum (S (S fuel)) eyePos screen near far = Some fr) /\
    FrustumParams.right fr - FrustumParams.left fr =
      ScreenGeometry.width screen * (near / effectiveDistance eyePos) /\
    FrustumParams.top fr - FrustumParams.bottom fr =
      ScreenGeometry.height screen * (near / effectiveDistance eyePos) /\
    FrustumParams.left fr < FrustumParams.right fr /\
    FrustumParams.bottom fr < FrustumParams.top fr.
Proof.
  intros Hw Hh Hn.
  destruct (Rle_dec (Vec3.z eyePos) 0) as [Hle | Hgt].
  - eexists. split.
    + intros fuel. rewrite offaxis_behind by assumption.
      apply offaxis_in_front. simpl. lra.
    + cbn [FrustumParams.left FrustumParams.right FrustumParams.top
           FrustumParams.bottom Vec3.x Vec3.y Vec3.z].
      replace (near / 1) with near by field.
      repeat split; try ring; nra.
  - assert (Hz : 0 < Vec3.z eyePos) by lra.
    assert (Hk : 0 < near / Vec3.z eyePos) by (apply Rdiv_lt_0_compat; lra).
    eexists. split.
    + intros fuel. apply offaxis_in_front. exact Hz.
    + cbn [FrustumParams.left FrustumParams.right FrustumParams.top
           FrustumParams.bottom].
      set (k := near / Vec3.z eyePos) in *.
      repeat split; try ring; nra.
Qed.

End OffAxisFrustumShape.

(** X1 for an eye behind the 344 x 215 screen: the fallback distance is 1,
    so with near = 1 the rectangle has the size of the screen. *)
Lemma offaxis_frustum_rectangle_witness :
  exists fr,
    KooimaProjection.calculateOffAxisFrustum 2 (Vec3.mk 50 (-30) (-10))
      (ScreenGeometry.mk 344 215) 1 10000 = Some fr /\
    FrustumParams.right fr - FrustumParams.left fr = 344 /\
    FrustumParams.top fr - FrustumParams.bottom fr = 215 /\
    FrustumParams.left fr < FrustumParams.right fr /\
    FrustumParams.bottom fr < FrustumParams.top fr.
Proof.
  destruct (offaxis_frustum_rectangle (ScreenGeometry.mk 344 215) 1 10000
              (Vec3.mk 50 (-30) (-10)))
    as [fr [Hfr [Hw [Hh [Hlr Hbt]]]]]; try (simpl; lra).
  exists fr. split; [apply (Hfr 0%nat)|].
  cbn [Vec3.z ScreenGeometry.width ScreenGeometry.height] in Hw, Hh.
  destruct (Rle_dec (-10) 0) as [_ | Hn]; [|lra].
  repeat split; try assumption; lra.
Defined.

(** ** More on the generalized projection solver *)

(** Equality of vectors, coordinate by coordinate. *)
Ltac vec3_eq :=
  unfold KooimaProjection.add, KooimaProjection.sub, KooimaProjection.scale,
    KooimaProjection.cross, KooimaProjection.dot;
  cbn [Vec3.x Vec3.y Vec3.z]; f_equal; try ring.

Section GeneralizedFrustum.

Import KooimaProjection.

Variables (screenLL screenLR screenUL : Vec3.t) (near far : R).

Local Abbreviation vr := (normalize (sub screenLR screenLL)).
Local Abbreviation vu := (normalize (sub screenUL screenLL)).
Local Abbreviation vn := (screenNormal screenLL screenLR screenUL).
Local Abbreviation distanceTo eyePos := (- dot (sub screenLL eyePos) vn).

(** The frustum of an activation that does not nudge the eye. *)
Lemma generalized_in_front_frustum (fuel : nat) (eyePos : Vec3.t) :
  0 < distanceTo eyePos ->
  option_map frustum
    (calculateGeneralizedProjection (S fuel)
       eyePos screenLL screenLR screenUL near far) =
  Some (FrustumParams.mk
          (dot vr (sub screenLL eyePos) * (near / distanceTo eyePos))
          (dot vr (sub screenLR eyePos) * (near / distanceTo eyePos))
          (dot vu (sub screenUL eyePos) * (near / distanceTo eyePos))
          (dot vu (sub screenLL eyePos) * (near / distanceTo eyePos))
          near far).
Proof.
  intros Hd. cbn [calculateGeneralizedProjection]. fold vn.
  destruct (Rle_dec (distanceTo eyePos) 0) as [Hle | _]; [lra|reflexivity].
Qed.








End GeneralizedFrustum.

Section GeneralizedInvariance.

Import KooimaProjection.

Variables (screenLL screenLR screenUL : Vec3.t) (near far : R).

Local Abbreviation vn := (screenNormal screenLL screenLR screenUL).
Local Abbreviation distanceTo eyePos := (- dot (sub screenLL eyePos) vn).





End GeneralizedInvariance.

Section AxisAlignedScreen.

Import KooimaProjection.

Variables (screen : ScreenGeometry.t) (near far : R).

(** The corners pa, pb and pc that [calculateOffAxisFrustum] works with. *)
Local Abbreviation pa :=
  (Vec3.mk (- (ScreenGeometry.width screen / 2))
           (- (ScreenGeometry.height screen / 2)) 0).
Local Abbreviation pb :=
  (Vec3.mk (ScreenGeometry.width screen / 2)
           (- (ScreenGeometry.height screen / 2)) 0).
Local Abbreviation pc :=
  (Vec3.mk (- (ScreenGeometry.width screen / 2))
           (ScreenGeometry.height screen / 2) 0).

Hypothesis width_pos : 0 < ScreenGeometry.width screen.
Hypothesis height_pos : 0 < ScreenGeometry.height screen.

Lemma normalize_x_axis (a : R) :
  0 < a -> normalize (Vec3.mk a 0 0) = Vec3.mk 1 0 0.
Proof.
  intros Ha. unfold normalize. cbn [Vec3.x Vec3.y Vec3.z].
  replace (a * a + 0 * 0 + 0 * 0) with (a * a) by ring.
  rewrite sqrt_square by lra.
  destruct (Req_dec_T a 0) as [H0 | _]; [lra|]. f_equal; field; lra.
Qed.

Lemma normalize_y_axis (a : R) :
  0 < a -> normalize (Vec3.mk 0 a 0) = Vec3.mk 0 1 0.
Proof.
  intros Ha. unfold normalize. cbn [Vec3.x Vec3.y Vec3.z].
  replace (0 * 0 + a * a + 0 * 0) with (a * a) by ring.
  rewrite sqrt_square by lra.
  destruct (Req_dec_T a 0) as [H0 | _]; [lra|]. f_equal; field; lra.
Qed.

Lemma normalize_z_axis (a : R) :
  0 < a -> normalize (Vec3.mk 0 0 a) = Vec3.mk 0 0 1.
Proof.
  intros Ha. unfold normalize. cbn [Vec3.x Vec3.y Vec3.z].
  replace (0 * 0 + 0 * 0 + a * a) with (a * a) by ring.
  rewrite sqrt_square by lra.
  destruct (Req_dec_T a 0) as [H0 | _]; [lra|]. f_equal; field; lra.
Qed.

(** The basis of the axis-aligned screen is the one the comments of
    [calculateOffAxisFrustum] take for granted. *)
Lemma axis_aligned_right : normalize (sub pb pa) = Vec3.mk 1 0 0.
Proof.
  replace (sub pb pa) with (Vec3.mk (ScreenGeometry.width screen) 0 0)
    by (vec3_eq; field).
  apply normalize_x_axis. exact width_pos.
Qed.

Lemma axis_aligned_up : normalize (sub pc pa) = Vec3.mk 0 1 0.
Proof.
  replace (sub pc pa) with (Vec3.mk 0 (ScreenGeometry.height screen) 0)
    by (vec3_eq; field).
  apply normalize_y_axis. exact height_pos.
Qed.

Lemma axis_aligned_normal : screenNormal pa pb pc = Vec3.mk 0 0 1.
Proof.
  unfold screenNormal. rewrite axis_aligned_right, axis_aligned_up.
  replace (cross (Vec3.mk 1 0 0) (Vec3.mk 0 1 0)) with (Vec3.mk 0 0 1)
    by vec3_eq.
  apply normalize_z_axis. lra.
Qed.

Lemma axis_aligned_distance (eyePos : Vec3.t) :
  - dot (sub pa eyePos) (screenNormal pa pb pc) = Vec3.z eyePos.
Proof.
  rewrite axis_aligned_normal. unfold dot, sub. simpl. ring.
Qed.

(** In front of the screen plane the two solvers compute the same
    frustum. *)
Lemma axis_aligned_in_front (fuel : nat) (eyePos : Vec3.t) :
  0 < Vec3.z eyePos ->
  option_map frustum
    (calculateGeneralizedProjection (S fuel) eyePos pa pb pc near far) =
  calculateOffAxisFrustum (S fuel) eyePos screen near far.
Proof.
  intros Hz.
  rewrite generalized_in_front_frustum
    by (rewrite axis_aligned_distance; exact Hz).
  rewrite offaxis_in_front by exact Hz.
  rewrite axis_aligned_distance, axis_aligned_right, axis_aligned_up.
  unfold dot, sub. cbn [Vec3.x Vec3.y Vec3.z].
  f_equal. f_equal; ring.
Qed.

(** X6: on the axis-aligned screen centred at the origin, the generalized
    solver returns the frustum of [calculateOffAxisFrustum], for every eye
    position: in front of the plane, or on or behind it, where both
    functions go on with the eye at distance 1 in front of the plane. *)
Theorem generalized_agrees_with_offaxis (fuel : nat) (eyePos : Vec3.t) :
  option_map frustum
    (calculateGeneralizedProjection (S (S fuel)) eyePos pa pb pc near far) =
  calculateOffAxisFrustum (S (S fuel)) eyePos screen near far.
Proof.
  destruct (Rle_dec (Vec3.z eyePos) 0) as [Hle | Hgt].
  - rewrite generalized_behind by (rewrite axis_aligned_distance; exact Hle).
    rewrite offaxis_behind by exact Hle.
    rewrite axis_aligned_distance, axis_aligned_normal.
    replace (add eyePos (scale (Vec3.mk 0 0 1) (1 - Vec3.z eyePos)))
      with (Vec3.mk (Vec3.x eyePos) (Vec3.y eyePos) 1) by vec3_eq.
    apply axis_aligned_in_front. simpl. lra.
  - apply axis_aligned_in_front. lra.
Qed.

End AxisAlignedScreen.

(** ** More on the One-Euro filter *)

Section OneEuroBehaviour.

Import OneEuroFilter.

(** The smoothing factor in closed form. *)
Lemma alpha_closed_form (cutoff dt : R) :
  0 < cutoff -> 0 < dt ->
  _alpha cutoff dt = 2 * PI * cutoff * dt / (2 * PI * cutoff * dt + 1).
Proof.
  intros Hc Hdt. unfold _alpha. rewrite !one_point_zero.
  pose proof PI_gt_3 as Hpi.
  assert (0 < 2 * PI * cutoff * dt) by (apply Rmult_lt_0_compat; nra).
  field. repeat split; nra.
Qed.

(** The smoothing factor grows with the cutoff frequency and with the time
    step. *)
Lemma alpha_increasing (cutoff1 cutoff2 dt1 dt2 : R) :
  0 < cutoff1 -> cutoff1 <= cutoff2 -> 0 < dt1 -> dt1 <= dt2 ->
  _alpha cutoff1 dt1 <= _alpha cutoff2 dt2.
Proof.
  intros Hc1 Hc Hd1 Hd.
  rewrite !alpha_closed_form by lra.
  pose proof PI_gt_3 as Hpi.
  assert (H1 : 0 < 2 * PI * cutoff1 * dt1)
    by (apply Rmult_lt_0_compat; nra).
  assert (H12 : 2 * PI * cutoff1 * dt1 <= 2 * PI * cutoff2 * dt2).
  { apply Rmult_le_compat; try nra. }
  set (u := 2 * PI * cutoff1 * dt1) in *.
  set (v := 2 * PI * cutoff2 * dt2) in *.
  apply Rmult_le_reg_r with ((u + 1) * (v + 1)); [nra|].
  replace (u / (u + 1) * ((u + 1) * (v + 1))) with (u * (v + 1))
    by (field; lra).
  replace (v / (v + 1) * ((u + 1) * (v + 1))) with (v * (u + 1))
    by (field; lra).
  lra.
Qed.

(** X7: the smoothing factor grows with the cutoff frequency and with the
    time step, and stays strictly between 0 and 1: a faster signal or a
    longer gap gives less smoothing, and the new sample never counts for
    nothing nor for everything. *)
Theorem alpha_monotone (cutoff1 cutoff2 dt1 dt2 : R) :
  0 < cutoff1 -> cutoff1 <= cutoff2 -> 0 < dt1 -> dt1 <= dt2 ->
  0 < _alpha cutoff1 dt1 /\
  _alpha cutoff1 dt1 <= _alpha cutoff2 dt2 /\
  _alpha cutoff2 dt2 < 1.
Proof.
  intros Hc1 Hc Hd1 Hd.
  split; [apply alpha_bounds; lra|].
  split; [apply alpha_increasing; assumption|].
  apply alpha_bounds; lra.
Qed.

End OneEuroBehaviour.

Section OneEuroRuns.

Import OneEuroFilter.

Lemma feed_cons (f : t) (x timestamp : R) (rest : list (R * R)) :
  feed f ((x, timestamp) :: rest) =
  (fst (filter f x timestamp) :: fst (feed (snd (filter f x timestamp)) rest),
   snd (feed (snd (filter f x timestamp)) rest)).
Proof.
  cbn [feed]. destruct (filter f x timestamp) as [y f1]. cbn [fst snd].
  destruct (feed f1 rest) as [ys f2]. reflexivity.
Qed.

(** No call changes the parameters of the filter. *)
Lemma filter_parameters (f : t) (x timestamp : R) :
  minCutoff (snd (filter f x timestamp)) = minCutoff f /\
  beta (snd (filter f x timestamp)) = beta f /\
  dCutoff (snd (filter f x timestamp)) = dCutoff f.
Proof.
  unfold filter. destruct (_tPrev f) as [tPrev|].
  - destruct (Rle_dec (timestamp - tPrev) 0); [repeat split; reflexivity|].
    low_pass_cases f; repeat split; reflexivity.
  - repeat split; reflexivity.
Qed.

Lemma reset_filter (f : t) (x timestamp : R) :
  reset (snd (filter f x timestamp)) = reset f.
Proof.
  destruct (filter_parameters f x timestamp) as [Hm [Hb Hd]].
  unfold reset. rewrite Hm, Hb, Hd. reflexivity.
Qed.







(** One call moves the recorded timestamp to the later of the two. *)
Lemma tPrev_step (f : t) (x timestamp tPrev : R) :
  _tPrev f = Some tPrev ->
  _tPrev (snd (filter f x timestamp)) = Some (Rmax tPrev timestamp).
Proof.
  intros Ht. unfold filter. rewrite Ht.
  destruct (Rle_dec (timestamp - tPrev) 0) as [Hle | Hgt].
  - cbn [snd]. rewrite Ht. f_equal. rewrite Rmax_left; [reflexivity|lra].
  - rewrite Rmax_right by lra. low_pass_cases f; reflexivity.
Qed.

Lemma tPrev_feed (samples : list (R * R)) (f : t) (tPrev : R) :
  _tPrev f = Some tPrev ->
  _tPrev (snd (feed f samples)) =
  Some (fold_left Rmax (map snd samples) tPrev).
Proof.
  revert f tPrev. induction samples as [|[x timestamp] rest IH];
    intros f tPrev Ht; [exact Ht|].
  rewrite feed_cons. cbn [snd map fold_left].
  apply IH. apply tPrev_step. exact Ht.
Qed.

(** X10: the recorded timestamp is the latest timestamp seen since the last
    reset; it never moves backwards, so a sample is rejected exactly when it
    is not later than every sample before it. *)
Theorem recorded_timestamp_is_latest (f : t) (x timestamp : R)
    (rest : list (R * R)) :
  _tPrev (snd (feed (reset f) ((x, timestamp) :: rest))) =
  Some (fold_left Rmax (map snd rest) timestamp).
Proof.
  rewrite feed_cons. cbn [snd]. apply tPrev_feed. reflexivity.
Qed.

End OneEuroRuns.

(** ** More on the vector filter *)

Section VectorRuns.

Import Vector3OneEuroFilter.

Lemma vector_feed_cons (f : t) (pos : Vec3.t) (timestamp : R)
    (rest : list (Vec3.t * R)) :
  feed f ((pos, timestamp) :: rest) =
  (fst (filter f pos timestamp)
     :: fst (feed (snd (filter f pos timestamp)) rest),
   snd (feed (snd (filter f pos timestamp)) rest)).
Proof.
  cbn [feed]. destruct (filter f pos timestamp) as [p f1]. cbn [fst snd].
  destruct (feed f1 rest) as [ps f2]. reflexivity.
Qed.

(** The remembered point after a call is the point that the call
    returned. *)
Lemma vector_remembers_output (f : t) (pos : Vec3.t) (timestamp : R) :
  _lastOutput (snd (filter f pos timestamp)) =
  Some (fst (filter f pos timestamp)).
Proof.
  unfold filter. run_axes f pos timestamp.
  destruct (Rgt_dec (_deadZone f) 0); [|reflexivity].
  destruct (_lastOutput f) as [last|]; [|reflexivity].
  destruct (Rlt_dec _ (_deadZone f)); reflexivity.
Qed.

(** X11: the emitted point moves in steps of at least the dead zone.  After
    every call the remembered point is the point returned; and with a
    positive dead zone, the point returned is the point returned before, or
    is at least the dead zone away from it. *)
Theorem dead_zone_steps (f : t) (pos : Vec3.t) (timestamp : R) :
  _lastOutput (snd (filter f pos timestamp)) =
    Some (fst (filter f pos timestamp)) /\
  forall lastOutput,
    0 < _deadZone f ->
    _lastOutput f = Some lastOutput ->
    fst (filter f pos timestamp) = lastOutput \/
    _deadZone f <= distance (fst (filter f pos timestamp)) lastOutput.
Proof.
  split; [apply vector_remembers_output|].
  intros lastOutput Hdz Hlast.
  destruct (Rlt_dec (distance (filtered f pos timestamp) lastOutput)
              (_deadZone f)) as [Hlt | Hge].
  - left. apply (vector_suppressed f pos timestamp lastOutput Hdz Hlast Hlt).
  - right.
    destruct (vector_emitted f pos timestamp lastOutput Hlast) as [Hout _];
      [lra|].
    rewrite Hout. lra.
Qed.

(** X12: a dead zone of zero or less switches the suppression off: the
    filtered point is returned and remembered on every call. *)
Theorem dead_zone_disabled (f : t) (pos : Vec3.t) (timestamp : R) :
  _deadZone f <= 0 ->
  fst (filter f pos timestamp) = filtered f pos timestamp /\
  _lastOutput (snd (filter f pos timestamp)) =
    Some (filtered f pos timestamp).
Proof.
  intros Hdz. unfold filtered, filter. run_axes f pos timestamp.
  destruct (Rgt_dec (_deadZone f) 0) as [Hgt | _]; [lra|].
  split; reflexivity.
Qed.

(** No call changes what [reset] keeps. *)
Lemma vector_reset_filter (f : t) (pos : Vec3.t) (timestamp : R) :
  reset (snd (filter f pos timestamp)) = reset f.
Proof.
  destruct (vector_axes f pos timestamp) as [HX [HY [HZ Hdz]]].
  unfold reset. rewrite HX, HY, HZ, Hdz, !reset_filter. reflexivity.
Qed.

Lemma vector_reset_feed (samples : list (Vec3.t * R)) (f : t) :
  reset (snd (feed f samples)) = reset f.
Proof.
  revert f. induction samples as [|[pos timestamp] rest IH]; intros f;
    [reflexivity|].
  rewrite vector_feed_cons. cbn [snd]. rewrite IH.
  apply vector_reset_filter.
Qed.

(** X13: [reset] erases the history.  Whatever samples a filter has seen,
    resetting it gives the reset of the filter it started from, and the next
    sample is returned as it is. *)
Theorem reset_erases_history (f : t) (samples : list (Vec3.t * R))
    (pos : Vec3.t) (timestamp : R) :
  reset (snd (feed f samples)) = reset f /\
  fst (filter (reset (snd (feed f samples))) pos timestamp) =
  Position.mk (Some (Vec3.x pos)) (Some (Vec3.y pos)) (Some (Vec3.z pos)).
Proof.
  split; [apply vector_reset_feed|].
  rewrite vector_reset_feed.
  rewrite (vector_fresh (reset f) pos timestamp); reflexivity.
Qed.

End VectorRuns.

Section NoNull.

Import Vector3OneEuroFilter.

(** A per-axis filter that records a timestamp holds a value. *)
Local Abbreviation holds a :=
  (OneEuroFilter._tPrev a = None \/
   LowPassFilter._prev (OneEuroFilter._xFilter a) <> None).

(** A point whose three coordinates are numbers. *)
Local Abbreviation numeric p :=
  (exists a b c, p = Position.mk (Some a) (Some b) (Some c)).

Lemma axis_number (a : OneEuroFilter.t) (x timestamp : R) :
  holds a ->
  (exists y, fst (OneEuroFilter.filter a x timestamp) = Some y) /\
  holds (snd (OneEuroFilter.filter a x timestamp)).
Proof.
  intros Hinv.
  assert (Hout : exists y, fst (OneEuroFilter.filter a x timestamp) = Some y).
  { unfold OneEuroFilter.filter.
    destruct (OneEuroFilter._tPrev a) as [tPrev|]; [|eexists; reflexivity].
    destruct Hinv as [Ht | Hp]; [discriminate|].
    destruct (Rle_dec (timestamp - tPrev) 0).
    - unfold LowPassFilter.prev. cbn [fst].
      destruct (LowPassFilter._prev (OneEuroFilter._xFilter a)) as [p|];
        [eexists; reflexivity | congruence].
    - low_pass_cases a; eexists; reflexivity. }
  split; [exact Hout|]. right.
  pose proof (axis_holds_result a x timestamp) as Hheld.
  unfold LowPassFilter.prev in Hheld. rewrite Hheld.
  destruct Hout as [y Hy]. rewrite Hy. discriminate.
Qed.

Lemma vector_number (f : t) (pos : Vec3.t) (timestamp : R) :
  holds (_filterX f) -> holds (_filterY f) -> holds (_filterZ f) ->
  (forall last, _lastOutput f = Some last -> numeric last) ->
  numeric (fst (filter f pos timestamp)) /\
  holds (_filterX (snd (filter f pos timestamp))) /\
  holds (_filterY (snd (filter f pos timestamp))) /\
  holds (_filterZ (snd (filter f pos timestamp))) /\
  (forall last,
     _lastOutput (snd (filter f pos timestamp)) = Some last -> numeric last).
Proof.
  intros HX HY HZ Hlast.
  destruct (axis_number _ (Vec3.x pos) timestamp HX) as [[a Ha] HX'].
  destruct (axis_number _ (Vec3.y pos) timestamp HY) as [[b Hb] HY'].
  destruct (axis_number _ (Vec3.z pos) timestamp HZ) as [[c Hc] HZ'].
  destruct (vector_axes f pos timestamp) as [EX [EY [EZ _]]].
  rewrite EX, EY, EZ.
  assert (Hout : numeric (fst (filter f pos timestamp))).
  { destruct (vector_output_cases f pos timestamp) as [Hf | Hl].
    - rewrite Hf. unfold filtered. rewrite Ha, Hb, Hc.
      exists a, b, c. reflexivity.
    - apply Hlast. exact Hl. }
  split; [exact Hout|]. repeat split; try assumption.
  intros last Hl. rewrite vector_remembers_output in Hl.
  injection Hl as <-. exact Hout.
Qed.

Lemma vector_number_feed (samples : list (Vec3.t * R)) (f : t) :
  holds (_filterX f) -> holds (_filterY f) -> holds (_filterZ f) ->
  (forall last, _lastOutput f = Some last -> numeric last) ->
  Forall (fun p => numeric p) (fst (feed f samples)).
Proof.
  revert f. induction samples as [|[pos timestamp] rest IH];
    intros f HX HY HZ Hlast; [constructor|].
  rewrite vector_feed_cons. cbn [fst].
  destruct (vector_number f pos timestamp HX HY HZ Hlast)
    as [Hout [HX' [HY' [HZ' Hlast']]]].
  constructor; [exact Hout|]. apply IH; assumption.
Qed.

(** X14: [null] never leaks.  Every point returned by a filter that started
    without history (constructed or reset) has three numbers as
    coordinates, although [OneEuroFilter.filter] returns a nullable field on
    one of its paths. *)
Theorem outputs_are_numbers (f : t) (samples : list (Vec3.t * R)) :
  Forall (fun p => exists a b c, p = Position.mk (Some a) (Some b) (Some c))
    (fst (feed (reset f) samples)).
Proof.
  apply vector_number_feed; try (left; reflexivity).
  intros last Hl. discriminate.
Qed.

End NoNull.

(** ** More on the head pose estimator *)

Section EstimatorBehaviour.

Import HeadPoseEstimator.

(** The estimator with another vector filter and tracking flag. *)
Local Abbreviation with_state e f b := (set_wasTracking (set_filter e f) b).

(** X15: [estimate] writes the vector filter and the tracking flag and nothing
    else: screen and video geometry, sensitivities, the iris-depth switch
    and the focal length are as before, whatever the landmarks and however
    the call ends. *)
Theorem estimate_keeps_configuration (e : t)
    (landmarks : option (list Vec3.t)) (now : R) :
  snd (estimate e landmarks now) =
  with_state e (_filter (snd (estimate e landmarks now)))
    (_wasTracking (snd (estimate e landmarks now))).
Proof.
  unfold estimate.
  destruct landmarks as [[|l0 ls]|].
  - destruct (_wasTracking e) eqn:Hw; [reflexivity|].
    destruct e; cbn in *; subst; reflexivity.
  - destruct (nth_error (l0 :: ls) 1) as [nose|]; [|reflexivity].
    match goal with
    | |- context [match ?d with Return _ => _ | Throw _ => _ end] =>
        destruct d as [z|err]
    end; [|reflexivity].
    match goal with
    | |- context [Vector3OneEuroFilter.filter ?f ?p ?t] =>
        destruct (Vector3OneEuroFilter.filter f p t) as [out f']
    end.
    reflexivity.
  - destruct (_wasTracking e) eqn:Hw; [reflexivity|].
    destruct e; cbn in *; subst; reflexivity.
Qed.

(** The iris can be measured exactly on arrays of 477 landmarks or more. *)
Lemma irisWidthPx_defined (e : t) (landmarks : list Vec3.t) :
  (477 <= List.length landmarks)%nat ->
  exists irisPx, _irisWidthPx e landmarks = Return irisPx.
Proof.
  intros Hlen. unfold _irisWidthPx.
  destruct (nth_error landmarks 469) eqn:H469;
    [|apply nth_error_None in H469; lia].
  destruct (nth_error landmarks 471) eqn:H471;
    [|apply nth_error_None in H471; lia].
  destruct (nth_error landmarks 474) eqn:H474;
    [|apply nth_error_None in H474; lia].
  destruct (nth_error landmarks 476) eqn:H476;
    [|apply nth_error_None in H476; lia].
  eexists. reflexivity.
Qed.

Lemma irisWidthPx_short (e : t) (landmarks : list Vec3.t) :
  (List.length landmarks < 477)%nat ->
  _irisWidthPx e landmarks = Throw TypeError.
Proof.
  intros Hlen. unfold _irisWidthPx.
  assert (H476 : nth_error landmarks 476 = None)
    by (apply nth_error_None; lia).
  rewrite H476.
  destruct (nth_error landmarks 469); destruct (nth_error landmarks 471);
    destruct (nth_error landmarks 474); reflexivity.
Qed.

(** X16: [calibrate] succeeds or changes nothing.  On fewer than 477
    landmarks it throws a [TypeError], on an iris narrower than 5 px it
    throws its [Error], and in both cases the estimator is as before; a
    successful call changes the focal length and the iris-depth switch
    only. *)
Theorem calibrate_all_or_nothing (e : t) (landmarks : list Vec3.t)
    (distanceMm : R) :
  ((List.length landmarks < 477)%nat ->
   calibrate e landmarks distanceMm = (Throw TypeError, e)) /\
  (forall irisPx,
     _irisWidthPx e landmarks = Return irisPx -> irisPx < MIN_IRIS_PX ->
     calibrate e landmarks distanceMm =
     (Throw (Error "Cannot calibrate: iris not detected clearly enough."),
      e)) /\
  (forall err,
     fst (calibrate e landmarks distanceMm) = Throw err ->
     snd (calibrate e landmarks distanceMm) = e) /\
  (forall focal,
     fst (calibrate e landmarks distanceMm) = Return focal ->
     snd (calibrate e landmarks distanceMm) = set_calibration e focal).
Proof.
  unfold calibrate. repeat split.
  - intros Hlen. rewrite irisWidthPx_short by exact Hlen. reflexivity.
  - intros irisPx Hw Hlt. rewrite Hw.
    destruct (Rlt_dec irisPx MIN_IRIS_PX); [reflexivity|lra].
  - intros err.
    destruct (_irisWidthPx e landmarks) as [irisPx|err']; [|reflexivity].
    destruct (Rlt_dec irisPx MIN_IRIS_PX); [reflexivity|discriminate].
  - intros focal.
    destruct (_irisWidthPx e landmarks) as [irisPx|err']; [|discriminate].
    destruct (Rlt_dec irisPx MIN_IRIS_PX); [discriminate|].
    cbn [fst snd]. intros H. injection H as <-. reflexivity.
Qed.

(** X17: [estimate] throws exactly on arrays that are too short.  On a
    non-empty array with fewer landmarks than the call reads (2, or 477 when
    iris depth is active) it throws a [TypeError] after it has set the
    tracking flag, and leaves the vector filter alone; on any longer array
    it returns a position. *)
Theorem estimate_throws_on_short_arrays (e : t) (landmarks : list Vec3.t)
    (now : R) :
  landmarks <> [] ->
  ((List.length landmarks < landmarksRead e)%nat ->
   estimate e (Some landmarks) now =
   (Throw TypeError, set_wasTracking e true)) /\
  ((landmarksRead e <= List.length landmarks)%nat ->
   exists p, fst (estimate e (Some landmarks) now) = Return (Some p)).
Proof.
  intros Hne. destruct landmarks as [|l0 ls]; [congruence|].
  unfold landmarksRead, irisDepthActive, estimate.
  cbn [set_wasTracking _useIrisDepth _focalLengthPx].
  split.
  - intros Hlen.
    destruct (nth_error (l0 :: ls) 1) as [nose|] eqn:Hnose; [|reflexivity].
    assert (H2 : (2 <= List.length (l0 :: ls))%nat).
    { assert (Hsome : nth_error (l0 :: ls) 1 <> None) by congruence.
      apply nth_error_Some in Hsome. lia. }
    destruct (_useIrisDepth e); [|cbn [andb] in Hlen; lia].
    destruct (_focalLengthPx e) as [focal|]; [|cbn [andb] in Hlen; lia].
    cbn [andb] in Hlen. unfold _estimateDepthFromIris.
    change (_irisWidthPx (set_wasTracking e true) (l0 :: ls))
      with (_irisWidthPx e (l0 :: ls)).
    rewrite irisWidthPx_short by exact Hlen. reflexivity.
  - intros Hlen.
    assert (H2 : (2 <= List.length (l0 :: ls))%nat)
      by (destruct (_useIrisDepth e && _)%bool; lia).
    destruct (nth_error (l0 :: ls) 1) as [nose|] eqn:Hnose;
      [|apply nth_error_None in Hnose; lia].
    assert (Hdepth : exists depth,
      (if _useIrisDepth e
       then match _focalLengthPx e with
            | Some _ =>
                _estimateDepthFromIris (set_wasTracking e true) (l0 :: ls)
            | None => Return (_defaultZ e)
            end
       else Return (_defaultZ e)) = Return depth).
    { destruct (_useIrisDepth e); [|eexists; reflexivity].
      destruct (_focalLengthPx e) as [focal|]; [|eexists; reflexivity].
      cbn [andb] in Hlen. unfold _estimateDepthFromIris.
      destruct (irisWidthPx_defined (set_wasTracking e true) (l0 :: ls) Hlen)
        as [irisPx Hw].
      rewrite Hw. destruct (Rlt_dec irisPx MIN_IRIS_PX); eexists; reflexivity. }
    destruct Hdepth as [depth Hdepth].
    cbn [set_wasTracking _defaultZ] in *. rewrite Hdepth.
    match goal with
    | |- context [Vector3OneEuroFilter.filter ?f ?p ?t] =>
        destruct (Vector3OneEuroFilter.filter f p t) as [out f']
    end.
    eexists. reflexivity.
Qed.

End EstimatorBehaviour.

Section EstimatorDepth.

Import HeadPoseEstimator.

(** The raw position as the point that a filter without history returns. *)
Local Abbreviation emitted raw :=
  (Position.mk (Some (Vec3.x raw)) (Some (Vec3.y raw)) (Some (Vec3.z raw))).

(** On an estimator whose vector filter holds no history, [estimate] returns
    the raw position. *)
Lemma estimate_fresh (e : t) (landmarks : list Vec3.t) (nose : Vec3.t)
    (depth now : R) :
  _filter e = Vector3OneEuroFilter.reset (_filter e) ->
  nth_error landmarks 1 = Some nose ->
  depthOf e landmarks = Return depth ->
  fst (estimate e (Some landmarks) now) =
  Return (Some (emitted (rawPosition e nose depth))).
Proof.
  intros Hfresh Hnose Hdepth.
  rewrite (estimate_tracked e landmarks nose depth now Hnose Hdepth).
  cbn [fst]. rewrite (vector_fresh (_filter e) _ (now / 1000) Hfresh).
  reflexivity.
Qed.

(** [estimate] leaves what the raw position and the depth are computed
    from. *)
Lemma estimate_reads_same_configuration (e : t)
    (previous : option (list Vec3.t)) (landmarks : list Vec3.t)
    (nose : Vec3.t) (depth now : R) :
  rawPosition (snd (estimate e previous now)) nose depth =
    rawPosition e nose depth /\
  depthOf (snd (estimate e previous now)) landmarks = depthOf e landmarks.
Proof.
  unfold estimate.
  destruct previous as [[|l0 ls]|].
  - destruct (_wasTracking e); split; reflexivity.
  - destruct (nth_error (l0 :: ls) 1) as [nose'|]; [|split; reflexivity].
    match goal with
    | |- context [match ?d with Return _ => _ | Throw _ => _ end] =>
        destruct d as [z|err]
    end; [|split; reflexivity].
    match goal with
    | |- context [Vector3OneEuroFilter.filter ?f ?p ?t] =>
        destruct (Vector3OneEuroFilter.filter f p t) as [out f']
    end.
    split; reflexivity.
  - destruct (_wasTracking e); split; reflexivity.
Qed.

(** X18: reset on loss.  After a frame with landmarks and a frame without,
    the next frame with landmarks is answered with its raw position:
    nothing of the frames before the loss is blended in. *)
Theorem estimate_after_loss_is_raw (e0 : t)
    (previous lost : option (list Vec3.t)) (landmarks : list Vec3.t)
    (nose : Vec3.t) (depth now0 now1 now2 : R) :
  absent previous = false ->
  absent lost = true ->
  nth_error landmarks 1 = Some nose ->
  depthOf e0 landmarks = Return depth ->
  fst (estimate
         (snd (estimate (snd (estimate e0 previous now0)) lost now1))
         (Some landmarks) now2) =
  Return (Some (emitted (rawPosition e0 nose depth))).
Proof.
  intros Hprev Hlost Hnose Hdepth.
  pose proof (estimate_wasTracking e0 previous now0) as Hflag.
  rewrite Hprev in Hflag. cbn [negb] in Hflag.
  destruct (estimate_reads_same_configuration e0 previous landmarks nose
              depth now0) as [Hraw1 Hd1].
  set (e1 := snd (estimate e0 previous now0)) in *.
  destruct (estimate_reads_same_configuration e1 lost landmarks nose
              depth now1) as [Hraw2 Hd2].
  assert (Hfilter : _filter (snd (estimate e1 lost now1)) =
                    Vector3OneEuroFilter.reset (_filter e1)).
  { rewrite (estimate_absent_step e1 lost now1 Hlost), Hflag. reflexivity. }
  set (e2 := snd (estimate e1 lost now1)) in *.
  rewrite <- Hraw1, <- Hraw2.
  apply estimate_fresh; [|exact Hnose|].
  - rewrite Hfilter. reflexivity.
  - rewrite Hd2, Hd1. exact Hdepth.
Qed.

(** The estimator with iris depth switched off. *)
Local Abbreviation without_iris_depth e :=
  (mk (_screenW e) (_screenH e) (_defaultZ e) (_videoW e) (_videoH e)
      (_sensX e) (_sensY e) (_sensZ e) false (_focalLengthPx e)
      (_filter e) (_wasTracking e)).

(** X19: the measured depth is ignored when it is not trusted or not wanted.
    On a frame that has the iris landmarks, so that [_irisWidthPx] returns a
    width [irisPx] (477 landmarks or more; a shorter frame makes the
    measurement throw), if that width is less than 5 px or the depth
    sensitivity is 0, [estimate] returns what it returns with iris depth
    switched off, and leaves the same vector filter. *)
Theorem estimate_ignores_depth (e : t) (landmarks : list Vec3.t)
    (irisPx now : R) :
  _irisWidthPx e landmarks = Return irisPx ->
  irisPx < MIN_IRIS_PX \/ _sensZ e = 0 ->
  fst (estimate e (Some landmarks) now) =
    fst (estimate (without_iris_depth e) (Some landmarks) now) /\
  _filter (snd (estimate e (Some landmarks) now)) =
    _filter (snd (estimate (without_iris_depth e) (Some landmarks) now)).
Proof.
  intros Hw Hcase.
  destruct (irisWidthPx_nose e landmarks irisPx Hw) as [nose Hnose].
  assert (Hdepth : exists depth,
    depthOf e landmarks = Return depth /\
    rawPosition e nose depth = rawPosition e nose (_defaultZ e)).
  { unfold depthOf, _estimateDepthFromIris. rewrite Hw.
    destruct (_useIrisDepth e); [|eexists; split; reflexivity].
    destruct (_focalLengthPx e) as [focal|]; [|eexists; split; reflexivity].
    destruct (Rlt_dec irisPx MIN_IRIS_PX) as [Hlt | Hge];
      [eexists; split; reflexivity|].
    destruct Hcase as [Hlt | Hs]; [lra|].
    eexists. split; [reflexivity|].
    unfold rawPosition. rewrite Hs. f_equal. ring. }
  destruct Hdepth as [depth [Hdepth Hraw]].
  rewrite (estimate_tracked e landmarks nose depth now Hnose Hdepth).
  rewrite (estimate_tracked (without_iris_depth e) landmarks nose
             (_defaultZ e) now Hnose) by reflexivity.
  rewrite Hraw. split; reflexivity.
Qed.

(** X20: the pinhole model.  After a calibration at [distanceMm] on an iris of
    [calibratedPx] pixels, a frame with an iris of [irisPx] pixels is placed
    at distanceMm * calibratedPx / irisPx: half the iris width, twice the
    depth (on an estimator without filter history, depth sensitivity 1). *)
Theorem depth_is_inversely_proportional (e : t)
    (calibration landmarks : list Vec3.t)
    (distanceMm calibratedPx irisPx now : R) :
  _irisWidthPx e calibration = Return calibratedPx ->
  MIN_IRIS_PX <= calibratedPx ->
  _irisWidthPx e landmarks = Return irisPx ->
  MIN_IRIS_PX <= irisPx ->
  _sensZ e = 1 ->
  _filter e = Vector3OneEuroFilter.reset (_filter e) ->
  exists p,
    fst (estimate (snd (calibrate e calibration distanceMm))
           (Some landmarks) now) = Return (Some p) /\
    Position.z p = Some (distanceMm * calibratedPx / irisPx).
Proof.
  intros Hc Hcmin Hw Hmin Hsens Hfresh.
  destruct (irisWidthPx_nose e landmarks irisPx Hw) as [nose Hnose].
  rewrite (calibrate_ok e calibration distanceMm calibratedPx Hc Hcmin).
  cbn [snd].
  assert (Hdepth :
    depthOf (set_calibration e (calibratedPx * distanceMm / IRIS_DIAMETER_MM))
      landmarks = Return (distanceMm * calibratedPx / irisPx)).
  { unfold depthOf, _estimateDepthFromIris.
    cbn [set_calibration _useIrisDepth _focalLengthPx _defaultZ].
    change (_irisWidthPx
              (set_calibration e
                 (calibratedPx * distanceMm / IRIS_DIAMETER_MM)) landmarks)
      with (_irisWidthPx e landmarks).
    rewrite Hw. destruct (Rlt_dec irisPx MIN_IRIS_PX) as [Hlt | _]; [lra|].
    f_equal. unfold toNumber. pose proof IRIS_DIAMETER_MM_pos.
    unfold MIN_IRIS_PX in Hmin. field. split; lra. }
  rewrite (estimate_fresh
             (set_calibration e (calibratedPx * distanceMm / IRIS_DIAMETER_MM))
             landmarks nose _ now Hfresh Hnose Hdepth).
  eexists. split; [reflexivity|].
  unfold rawPosition.
  cbn [Position.z Vec3.z set_calibration _defaultZ _sensZ].
  rewrite Hsens. f_equal. ring.
Qed.

(** X21: the first frame of a new estimator.  With iris depth not active
    (switched off, or no focal length configured), the first [estimate]
    returns the nose offset from the
    image centre scaled to the screen size and the sensitivities, y flipped,
    at the default viewing distance. *)
Theorem first_estimate_of_new_estimator (config : Config)
    (landmarks : list Vec3.t) (nose : Vec3.t) (now : R) :
  irisDepthActive (new config) = false ->
  nth_error landmarks 1 = Some nose ->
  fst (estimate (new config) (Some landmarks) now) =
  Return (Some (Position.mk
    (Some ((Vec3.x nose - 0.5) * screenWidthMm config
           * orElse (sensitivityX config) 1.0))
    (Some ((0.5 - Vec3.y nose) * screenHeightMm config
           * orElse (sensitivityY config) 1.0))
    (Some (defaultViewingDistance config)))).
Proof.
  intros Hoff Hnose.
  rewrite (estimate_fresh (new config) landmarks nose
             (defaultViewingDistance config) now).
  - unfold rawPosition. cbn [new _screenW _screenH _sensX _sensY _sensZ
      _defaultZ Vec3.x Vec3.y Vec3.z].
    f_equal. f_equal. f_equal; try reflexivity. f_equal. ring.
  - reflexivity.
  - exact Hnose.
  - unfold depthOf. unfold irisDepthActive in Hoff.
    destruct (_useIrisDepth (new config)); [|reflexivity].
    destruct (_focalLengthPx (new config)); [discriminate|reflexivity].
Qed.

End EstimatorDepth.

(** ** The near-plane rectangle of the generalized solver *)

Section GeneralizedRectangle.

Import KooimaProjection.

Variables (screenLL screenLR screenUL : Vec3.t) (near far : R).

Local Abbreviation vn := (screenNormal screenLL screenLR screenUL).
Local Abbreviation distanceTo eyePos := (- dot (sub screenLL eyePos) vn).

(** The component of a vector along its own direction is its length. *)
Lemma dot_normalize (v : Vec3.t) : dot (normalize v) v = sqrt (dot v v).
Proof.
  unfold normalize, dot.
  set (s := Vec3.x v * Vec3.x v + Vec3.y v * Vec3.y v + Vec3.z v * Vec3.z v).
  assert (Hs : 0 <= s) by (unfold s; nra).
  destruct (Req_dec_T (sqrt s) 0) as [Hz | Hnz].
  - rewrite Hz. simpl. ring.
  - cbn [Vec3.x Vec3.y Vec3.z].
    replace (Vec3.x v / sqrt s * Vec3.x v + Vec3.y v / sqrt s * Vec3.y v +
             Vec3.z v / sqrt s * Vec3.z v) with (s / sqrt s)
      by (unfold s; field; exact Hnz).
    rewrite <- (sqrt_sqrt s Hs) at 1. field. exact Hnz.
Qed.

Lemma dot_sub_r (a b c : Vec3.t) : dot a (sub b c) = dot a b - dot a c.
Proof. unfold dot, sub. simpl. ring. Qed.

(** X24: for an eye in front of the screen plane, the near-plane rectangle of
    the generalized solver is the screen scaled by near / d: its width is
    the length of the lower edge times near / d, its height the length of
    the left edge times near / d. *)
Theorem generalized_frustum_rectangle (fuel : nat) (eyePos : Vec3.t) :
  0 < distanceTo eyePos ->
  exists p,
    calculateGeneralizedProjection (S fuel)
      eyePos screenLL screenLR screenUL near far = Some p /\
    FrustumParams.right (frustum p) - FrustumParams.left (frustum p) =
      sqrt (dot (sub screenLR screenLL) (sub screenLR screenLL))
      * (near / distanceTo eyePos) /\
    FrustumParams.top (frustum p) - FrustumParams.bottom (frustum p) =
      sqrt (dot (sub screenUL screenLL) (sub screenUL screenLL))
      * (near / distanceTo eyePos).
Proof.
  intros Hd.
  pose proof (generalized_in_front_frustum screenLL screenLR screenUL
                near far fuel eyePos Hd) as Hfr.
  destruct (calculateGeneralizedProjection (S fuel)
              eyePos screenLL screenLR screenUL near far) as [p|];
    [|discriminate].
  cbn [option_map] in Hfr. injection Hfr as Hfr.
  exists p. split; [reflexivity|]. rewrite Hfr.
  cbn [FrustumParams.right FrustumParams.left FrustumParams.top
       FrustumParams.bottom].
  assert (Hw : dot (normalize (sub screenLR screenLL)) (sub screenLR eyePos)
               - dot (normalize (sub screenLR screenLL)) (sub screenLL eyePos)
               = sqrt (dot (sub screenLR screenLL) (sub screenLR screenLL))).
  { rewrite <- dot_normalize, <- dot_sub_r. f_equal. vec3_eq. }
  assert (Hh : dot (normalize (sub screenUL screenLL)) (sub screenUL eyePos)
               - dot (normalize (sub screenUL screenLL)) (sub screenLL eyePos)
               = sqrt (dot (sub screenUL screenLL) (sub screenUL screenLL))).
  { rewrite <- dot_normalize, <- dot_sub_r. f_equal. vec3_eq. }
  rewrite <- Hw, <- Hh. split; ring.
Qed.

End GeneralizedRectangle.

(** ** Convergence at rest *)

Section OneEuroConvergence.

Import OneEuroFilter.



End OneEuroConvergence.

(** ** The box of the raw points *)

Section VectorRange.

Import Vector3OneEuroFilter.

Variables (lo hi : Vec3.t).

(** A per-axis filter with usable parameters that holds nothing, or a value
    between [l] and [h]. *)
Local Abbreviation within l h a :=
  (0 < OneEuroFilter.minCutoff a /\ 0 <= OneEuroFilter.beta a /\
   ((OneEuroFilter._tPrev a = None /\
     LowPassFilter._prev (OneEuroFilter._xFilter a) = None) \/
    (exists tPrev p, OneEuroFilter._tPrev a = Some tPrev /\
       LowPassFilter._prev (OneEuroFilter._xFilter a) = Some p /\
       l <= p <= h))).

(** A point with numbers as coordinates, inside the box from [lo] to
    [hi]. *)
Local Abbreviation boxed p :=
  (exists a b c,
     p = Position.mk (Some a) (Some b) (Some c) /\
     Vec3.x lo <= a <= Vec3.x hi /\
     Vec3.y lo <= b <= Vec3.y hi /\
     Vec3.z lo <= c <= Vec3.z hi).





End VectorRange.

(** ** The further properties on concrete inputs *)

(** The corners of the 344 x 215 screen of [config.js]. *)
Lemma demo_screen_normal :
  KooimaProjection.screenNormal
    (Vec3.mk (- (344 / 2)) (- (215 / 2)) 0)
    (Vec3.mk (344 / 2) (- (215 / 2)) 0)
    (Vec3.mk (- (344 / 2)) (215 / 2) 0) = Vec3.mk 0 0 1.
Proof.
  apply (axis_aligned_normal (ScreenGeometry.mk 344 215)); simpl; lra.
Qed.


(** X6 for the 344 x 215 screen and the eye (5, 3, 0). *)
Lemma generalized_agrees_with_offaxis_witness :
  option_map KooimaProjection.frustum
    (KooimaProjection.calculateGeneralizedProjection 2 (Vec3.mk 5 3 0)
       (Vec3.mk (- (344 / 2)) (- (215 / 2)) 0)
       (Vec3.mk (344 / 2) (- (215 / 2)) 0)
       (Vec3.mk (- (344 / 2)) (215 / 2) 0) 1 10000) =
  KooimaProjection.calculateOffAxisFrustum 2 (Vec3.mk 5 3 0)
    (ScreenGeometry.mk 344 215) 1 10000.
Proof.
  apply (generalized_agrees_with_offaxis (ScreenGeometry.mk 344 215) 1 10000);
    simpl; lra.
Defined.



(** X7 for 1 Hz at 1 s against 2 Hz at 2 s. *)
Lemma alpha_monotone_witness :
  0 < OneEuroFilter._alpha 1 1 /\
  OneEuroFilter._alpha 1 1 <= OneEuroFilter._alpha 2 2 /\
  OneEuroFilter._alpha 2 2 < 1.
Proof. apply alpha_monotone; lra. Defined.


(** X11 on [startedAtOrigin]. *)
Lemma dead_zone_steps_witness :
  fst (Vector3OneEuroFilter.filter startedAtOrigin (Vec3.mk 1 0 0) 1) =
    Position.mk (Some 0) (Some 0) (Some 0) \/
  Vector3OneEuroFilter._deadZone startedAtOrigin <=
    Vector3OneEuroFilter.distance
      (fst (Vector3OneEuroFilter.filter startedAtOrigin (Vec3.mk 1 0 0) 1))
      (Position.mk (Some 0) (Some 0) (Some 0)).
Proof.
  apply (dead_zone_steps startedAtOrigin (Vec3.mk 1 0 0) 1).
  - rewrite startedAtOrigin_state. simpl. lra.
  - rewrite startedAtOrigin_state. reflexivity.
Defined.

(** X12 on a filter constructed with [deadZone: 0]. *)
Lemma dead_zone_disabled_witness :
  fst (Vector3OneEuroFilter.filter
         (Vector3OneEuroFilter.new
            (SmoothingOptions.mk None None None (Some 0)))
         (Vec3.mk 1 2 3) 0) =
  Vector3OneEuroFilter.filtered
    (Vector3OneEuroFilter.new (SmoothingOptions.mk None None None (Some 0)))
    (Vec3.mk 1 2 3) 0.
Proof. apply dead_zone_disabled. right. reflexivity. Defined.

(** X16 on an array of one landmark. *)
Lemma calibrate_all_or_nothing_witness :
  HeadPoseEstimator.calibrate
    (HeadPoseEstimator.new Main.headPoseEstimatorConfig)
    [Vec3.mk 0.5 0.5 0] 600 =
  (Throw TypeError, HeadPoseEstimator.new Main.headPoseEstimatorConfig).
Proof. apply calibrate_all_or_nothing. simpl. lia. Defined.

(** X17 on an array of one landmark. *)
Lemma estimate_throws_on_short_arrays_witness :
  HeadPoseEstimator.estimate
    (HeadPoseEstimator.new Main.headPoseEstimatorConfig)
    (Some [Vec3.mk 0.5 0.5 0]) 0 =
  (Throw TypeError,
   HeadPoseEstimator.set_wasTracking
     (HeadPoseEstimator.new Main.headPoseEstimatorConfig) true).
Proof.
  apply estimate_throws_on_short_arrays.
  - discriminate.
  - unfold HeadPoseEstimator.landmarksRead, HeadPoseEstimator.irisDepthActive.
    simpl. lia.
Defined.

(** X18 on [trackingEstimator]: a lost frame, then [distantFrame]. *)
Lemma estimate_after_loss_is_raw_witness :
  fst (HeadPoseEstimator.estimate
         (snd (HeadPoseEstimator.estimate trackingEstimator None 16))
         (Some distantFrame) 32) =
  Return (Some (Position.mk
    (Some ((0.5 - 0.5) * 344 * 1.0)) (Some ((0.5 - 0.5) * 215 * 1.0))
    (Some (600 + (600 - 600) * 1.0)))).
Proof.
  apply (estimate_after_loss_is_raw
           (HeadPoseEstimator.new Main.headPoseEstimatorConfig)
           (Some sampleFrame) None distantFrame (Vec3.mk 0.5 0.5 0) 600
           0 16 32); reflexivity.
Defined.

Lemma distantFrame_irisWidthPx (e : HeadPoseEstimator.t) :
  HeadPoseEstimator._videoW e = 640 ->
  HeadPoseEstimator._irisWidthPx e distantFrame = Return 32.
Proof.
  intros Hw. unfold HeadPoseEstimator._irisWidthPx, distantFrame.
  rewrite (nth_error_repeat_app _ 469 0), (nth_error_repeat_app _ 469 2),
    (nth_error_repeat_app _ 469 5), (nth_error_repeat_app _ 469 7).
  cbn [nth_error Vec3.x]. rewrite Hw.
  rewrite Rabs_left by lra. f_equal. lra.
Qed.

(** X19 for a depth sensitivity of 0, on [sampleFrame] with its 478
    landmarks and an iris of 64 px. *)
Lemma estimate_ignores_depth_witness :
  fst (HeadPoseEstimator.estimate
         (HeadPoseEstimator.new
            (HeadPoseEstimator.mkConfig 344 215 600 None None None None
               (Some 0) (Some true) (Some 512) None))
         (Some sampleFrame) 0) =
  fst (HeadPoseEstimator.estimate
         (HeadPoseEstimator.new
            (HeadPoseEstimator.mkConfig 344 215 600 None None None None
               (Some 0) (Some false) (Some 512) None))
         (Some sampleFrame) 0).
Proof.
  apply (estimate_ignores_depth
           (HeadPoseEstimator.new
              (HeadPoseEstimator.mkConfig 344 215 600 None None None None
                 (Some 0) (Some true) (Some 512) None))
           sampleFrame 64 0).
  - apply sampleFrame_irisWidthPx. reflexivity.
  - right. reflexivity.
Defined.

(** X20 on [sampleFrame] and [distantFrame]: calibrated at 600 mm on 64 px,
    a frame with 32 px is at 1200 mm. *)
Lemma depth_is_inversely_proportional_witness :
  exists p,
    fst (HeadPoseEstimator.estimate
           (snd (HeadPoseEstimator.calibrate
                   (HeadPoseEstimator.new Main.headPoseEstimatorConfig)
                   sampleFrame 600))
           (Some distantFrame) 0) = Return (Some p) /\
    Position.z p = Some (600 * 64 / 32).
Proof.
  apply (depth_is_inversely_proportional
           (HeadPoseEstimator.new Main.headPoseEstimatorConfig)
           sampleFrame distantFrame 600 64 32 0).
  - apply sampleFrame_irisWidthPx. reflexivity.
  - unfold MIN_IRIS_PX. lra.
  - apply distantFrame_irisWidthPx. reflexivity.
  - unfold MIN_IRIS_PX. lra.
  - simpl. lra.
  - reflexivity.
Defined.

(** X21 for the estimator of [main.js] and [sampleFrame]. *)
Lemma first_estimate_of_new_estimator_witness :
  fst (HeadPoseEstimator.estimate
         (HeadPoseEstimator.new Main.headPoseEstimatorConfig)
         (Some sampleFrame) 0) =
  Return (Some (Position.mk
    (Some ((0.5 - 0.5) * 344 * 1.0)) (Some ((0.5 - 0.5) * 215 * 1.0))
    (Some 600))).
Proof.
  apply (first_estimate_of_new_estimator Main.headPoseEstimatorConfig
           sampleFrame (Vec3.mk 0.5 0.5 0) 0); reflexivity.
Defined.



(** X24 for the 344 x 215 screen and the eye (5, 3, 600). *)
Lemma generalized_frustum_rectangle_witness :
  exists p,
    KooimaProjection.calculateGeneralizedProjection 1 (Vec3.mk 5 3 600)
      (Vec3.mk (- (344 / 2)) (- (215 / 2)) 0)
      (Vec3.mk (344 / 2) (- (215 / 2)) 0)
      (Vec3.mk (- (344 / 2)) (215 / 2) 0) 1 10000 = Some p /\
    FrustumParams.right (KooimaProjection.frustum p)
    - FrustumParams.left (KooimaProjection.frustum p) =
      sqrt (KooimaProjection.dot
              (KooimaProjection.sub (Vec3.mk (344 / 2) (- (215 / 2)) 0)
                 (Vec3.mk (- (344 / 2)) (- (215 / 2)) 0))
              (KooimaProjection.sub (Vec3.mk (344 / 2) (- (215 / 2)) 0)
                 (Vec3.mk (- (344 / 2)) (- (215 / 2)) 0)))
      * (1 / - KooimaProjection.dot
                 (KooimaProjection.sub
                    (Vec3.mk (- (344 / 2)) (- (215 / 2)) 0)
                    (Vec3.mk 5 3 600))
                 (KooimaProjection.screenNormal
                    (Vec3.mk (- (344 / 2)) (- (215 / 2)) 0)
                    (Vec3.mk (344 / 2) (- (215 / 2)) 0)
                    (Vec3.mk (- (344 / 2)) (215 / 2) 0))) /\
    FrustumParams.top (KooimaProjection.frustum p)
    - FrustumParams.bottom (KooimaProjection.frustum p) =
      sqrt (KooimaProjection.dot
              (KooimaProjection.sub (Vec3.mk (- (344 / 2)) (215 / 2) 0)
                 (Vec3.mk (- (344 / 2)) (- (215 / 2)) 0))
              (KooimaProjection.sub (Vec3.mk (- (344 / 2)) (215 / 2) 0)
                 (Vec3.mk (- (344 / 2)) (- (215 / 2)) 0)))
      * (1 / - KooimaProjection.dot
                 (KooimaProjection.sub
                    (Vec3.mk (- (344 / 2)) (- (215 / 2)) 0)
                    (Vec3.mk 5 3 600))
                 (KooimaProjection.screenNormal
                    (Vec3.mk (- (344 / 2)) (- (215 / 2)) 0)
                    (Vec3.mk (344 / 2) (- (215 / 2)) 0)
                    (Vec3.mk (- (344 / 2)) (215 / 2) 0))).
Proof.
  apply (generalized_frustum_rectangle
           (Vec3.mk (- (344 / 2)) (- (215 / 2)) 0)
           (Vec3.mk (344 / 2) (- (215 / 2)) 0)
           (Vec3.mk (- (344 / 2)) (215 / 2) 0) 1 10000 0 (Vec3.mk 5 3 600)).
  rewrite demo_screen_normal. unfold KooimaProjection.dot,
    KooimaProjection.sub. simpl. lra.
Defined.
